(** * Resampling workflows of qsiprep: construction of the pipeline graphs

    Embedding of [qsiprep/workflows/dwi/resampling.py].  The module builds
    nipype workflow graphs: it creates node objects, mutates their inputs and
    registers connections between them.  The embedding keeps that shape: a
    store of engine objects addressed by location, a workflow graph that
    refers to the store, and a small reader/state/exception monad in which the
    two [init_*] functions are written statement by statement. *)

From stdpp Require Import base list strings gmap pretty relations.
From Stdlib Require Import ZArith Lia Ascii.

(** ** Python values that travel along the connections *)

#[warnings="-register-all"]
Inductive pyval :=
| VNone
| VBool (b : bool)
| VInt (z : Z)
| VStr (s : string)
| VList (l : list pyval)
| VTuple (l : list pyval).

(** [isinstance(v, list)] *)
Definition isinstance_list (v : pyval) : bool :=
  match v with VList _ => true | _ => false end.

(** ** Exceptions and results *)

Inductive exn :=
| NameError (name : string)
| KeyError (key : string)
| IndexError
| TypeError
| ValueError
| TraitError.

Inductive result (A : Type) :=
| Ok (a : A)
| Raise (e : exn).
Arguments Ok {A} a.
Arguments Raise {A} e.

Definition raises {A} (r : result A) : bool :=
  match r with Ok _ => false | Raise _ => true end.

(** ** Numbers used as resource hints

    [mem_gb] is a Python float (or int); the hints handed to the engine are
    products of it.  The products are kept as written, the floating-point
    evaluation is not interpreted. *)

Inductive num :=
| NumInt (z : Z)
| NumDec (digits : Z) (scale : nat)   (* the literal digits * 10^-scale *)
| NumMul (a b : num).

Definition DEFAULT_MEMORY_MIN_GB : num := NumDec 1%Z 2.

(** ** Engine objects *)

Inductive Interface :=
| IdentityInterface (fields : list string)   (* niu.IdentityInterface *)
| NiuMerge (numinputs : Z)                   (* niu.Merge *)
| GenerateSamplingReference
| ApplyTransforms
| MultiApplyTransforms
| Merge                                      (* interfaces.nilearn.Merge *)
| FSLSplit
| Autobox                                    (* afni.Autobox *)
| Warp                                       (* afni.Warp *)
| Resample                                   (* afni.Resample *)
| NiftiInfo.

(** The global name through which the source reaches each interface class. *)
Definition iface_global (i : Interface) : string :=
  match i with
  | IdentityInterface _ | NiuMerge _ => "niu"
  | GenerateSamplingReference => "GenerateSamplingReference"
  | ApplyTransforms => "ApplyTransforms"
  | MultiApplyTransforms => "MultiApplyTransforms"
  | Merge => "Merge"
  | FSLSplit => "FSLSplit"
  | Autobox | Warp | Resample => "afni"
  | NiftiInfo => "NiftiInfo"
  end.

(** The input slots [in1 .. inN] that [niu.Merge(N)] declares. *)
Definition merge_slots (n : Z) : list string :=
  (fun i : nat => "in" +:+ pretty (Z.of_nat i)) <$> seq 1 (Z.to_nat n).

Definition input_slots (i : Interface) : list string :=
  match i with NiuMerge n => merge_slots n | _ => [] end.

Record Node := {
  interface : Interface;
  inputs : list (string * pyval);       (* statically set [node.inputs.*] *)
  node_name : string;
  node_mem_gb : option num;
  n_procs : option Z;
  run_without_submitting : bool
}.

(** The nested workflow returned by [init_bold_reference_wf] (module [.util],
    not part of this file): kept as the call that produced it, together with
    the one attribute this module touches. *)
Record RefWorkflow := {
  ref_omp_nthreads : Z;
  ref_pre_mask : option bool;           (* [None]: left at the callee's default *)
  ref_desc_unset : bool                 (* [__desc__ = None] was assigned *)
}.

Inductive engine_obj :=
| ONode (n : Node)
| OWorkflow (w : RefWorkflow).

Definition loc := nat.

(** Functions attached to the source side of a connection. *)
Inductive Modifier :=
| fn_first            (* module-level [_first] *)
| fn_aslist_mni       (* [_aslist] nested in [init_bold_mni_trans_wf] *)
| fn_aslist_dwi.      (* [_aslist] nested in [init_dwi_preproc_trans_wf] *)

Record Conn := {
  src : loc;
  src_field : string;
  src_fn : option Modifier;
  dst : loc;
  dst_field : string
}.

#[global] Instance Modifier_eq_dec : EqDecision Modifier.
Proof. solve_decision. Defined.
#[global] Instance Conn_eq_dec : EqDecision Conn.
Proof. solve_decision. Defined.

Record Workflow := {
  wf_name : string;
  wf_desc : option string;              (* [__desc__] *)
  wf_nodes : list loc;
  wf_conns : list Conn
}.

(** The store of objects and the workflow under construction. *)
Record state := {
  heap : list engine_obj;
  workflow : Workflow
}.

Definition empty_state : state :=
  {| heap := [];
     workflow := {| wf_name := ""; wf_desc := None; wf_nodes := []; wf_conns := [] |} |}.

(** ** The construction monad

    A computation reads the module namespace (the names bound at module
    level), threads the state and may raise. *)

Definition env := list string.

Definition build (A : Type) : Type := env -> state -> result (A * state).

Definition ret {A} (a : A) : build A := fun _ s => Ok (a, s).

Definition bind {A B} (m : build A) (k : A -> build B) : build B :=
  fun g s => match m g s with
             | Ok (a, s') => k a g s'
             | Raise e => Raise e
             end.

Definition raise {A} (e : exn) : build A := fun _ _ => Raise e.

Declare Scope build_scope.
Delimit Scope build_scope with build.
Bind Scope build_scope with build.
Notation "'let*' x := m 'in' k" := (bind m (fun x => k))
  (at level 10, x name, m at level 100, k at level 200) : build_scope.
Notation "m >> k" := (bind m (fun _ => k))
  (at level 100, k at level 200, right associativity) : build_scope.

Definition run (g : env) (m : build unit) : result state :=
  match m g empty_state with
  | Ok (_, s) => Ok s
  | Raise e => Raise e
  end.

(** ** Names accepted by the engine

    Workflows and nodes check their name against the pattern [^[\w-]+$]: at
    least one character, each a letter, a digit, an underscore or a hyphen,
    optionally followed by one final newline.  Names are taken to be ASCII:
    for a character outside ASCII Python consults the Unicode tables, which
    are not reproduced here, so [valid_name] accepts ASCII names only and a
    statement that a name is rejected is made for ASCII names
    ([ascii_only]). *)

Definition name_char (c : ascii) : bool :=
  let n := nat_of_ascii c in
  ((48 <=? n) && (n <=? 57)) || ((65 <=? n) && (n <=? 90)) ||
  ((97 <=? n) && (n <=? 122)) || (n =? 95) || (n =? 45).

Fixpoint name_tail (s : string) : bool :=
  match s with
  | EmptyString => true
  | String c s' =>
      if name_char c then name_tail s'
      else Ascii.eqb c "010"%char && String.eqb s' ""
  end.

Definition valid_name (s : string) : bool :=
  match s with
  | EmptyString => false
  | String c s' => name_char c && name_tail s'
  end.

Fixpoint ascii_only (s : string) : bool :=
  match s with
  | EmptyString => true
  | String c s' => (nat_of_ascii c <? 128) && ascii_only s'
  end.

(** Running from a given state. *)
Definition exec (g : env) (s : state) (m : build unit) : result state :=
  match m g s with
  | Ok (_, s') => Ok s'
  | Raise e => Raise e
  end.

(** Reference to a module-level name. *)
Definition use (x : string) : build unit :=
  fun g s => if bool_decide (x ∈ g) then Ok (tt, s) else Raise (NameError x).

(** [Workflow(name=name)]: the constructor raises [ValueError] for a name
    the engine does not accept. *)
Definition Workflow_new (name : string) : build unit :=
  (use "Workflow" >>
   fun _ s =>
     if valid_name name
     then Ok (tt, {| heap := heap s;
                     workflow := {| wf_name := name; wf_desc := None;
                                    wf_nodes := []; wf_conns := [] |} |})
     else Raise ValueError)%build.

(** [workflow.__desc__ = d] *)
Definition set_desc (d : string) : build unit :=
  fun _ s => Ok (tt, {| heap := heap s;
                        workflow := {| wf_name := wf_name (workflow s);
                                       wf_desc := Some d;
                                       wf_nodes := wf_nodes (workflow s);
                                       wf_conns := wf_conns (workflow s) |} |}).

Definition alloc (o : engine_obj) : build loc :=
  fun _ s => Ok (length (heap s), {| heap := heap s ++ [o]; workflow := workflow s |}).

(** The [mem_gb] keyword of [pe.Node]: absent, a value computed from locals,
    or the module constant [DEFAULT_MEMORY_MIN_GB]. *)
Definition no_mem : build (option num) := ret None.
Definition mem (v : num) : build (option num) := ret (Some v).
Definition mem_default_min : build (option num) :=
  (use "DEFAULT_MEMORY_MIN_GB" >> ret (Some DEFAULT_MEMORY_MIN_GB))%build.

(** [pe.Node(iface(kw), name=.., mem_gb=.., n_procs=.., run_without_submitting=..)]:
    Python resolves [pe], then the interface class, then the keyword
    arguments; the constructor then checks the name like [Workflow] does. *)
Definition pe_Node (i : Interface) (kw : list (string * pyval)) (name : string)
    (mem_gb : build (option num)) (procs : option Z) (rws : bool) : build loc :=
  (use "pe" >> use (iface_global i) >>
   let* m := mem_gb in
   if valid_name name
   then alloc (ONode {| interface := i; inputs := kw; node_name := name;
                        node_mem_gb := m; n_procs := procs;
                        run_without_submitting := rws |})
   else raise ValueError)%build.

(** Assignment to an entry of [node.inputs]: replace or add. *)
Fixpoint upsert (k : string) (v : pyval) (l : list (string * pyval)) : list (string * pyval) :=
  match l with
  | [] => [(k, v)]
  | (k', v') :: l' => if String.eqb k' k then (k, v) :: l' else (k', v') :: upsert k v l'
  end.

Definition obj_set_input (k : string) (v : pyval) (o : engine_obj) : engine_obj :=
  match o with
  | ONode n => ONode {| interface := interface n; inputs := upsert k v (inputs n);
                        node_name := node_name n; node_mem_gb := node_mem_gb n;
                        n_procs := n_procs n;
                        run_without_submitting := run_without_submitting n |}
  | OWorkflow w => OWorkflow w
  end.

(** [node.inputs.k = v]; the object is updated in the store, so the graph,
    which holds the location, sees the change. *)
Definition set_input (l : loc) (k : string) (v : pyval) : build unit :=
  fun _ s => Ok (tt, {| heap := alter (obj_set_input k v) l (heap s);
                        workflow := workflow s |}).

(** [node.inputs.k = path] where the input is declared [File(exists=True)]
    ([fixed_image] of [GenerateSamplingReference], [reference_image] of the
    two transform interfaces): the assignment raises [TraitError] unless the
    path is an existing file.  [isfile] is the file system at the time of the
    call. *)
Definition set_file_input (isfile : string -> bool) (l : loc) (k : string)
    (path : string) : build unit :=
  fun g s => if isfile path then set_input l k (VStr path) g s else Raise TraitError.

Definition obj_unset_desc (o : engine_obj) : engine_obj :=
  match o with
  | OWorkflow w => OWorkflow {| ref_omp_nthreads := ref_omp_nthreads w;
                                ref_pre_mask := ref_pre_mask w;
                                ref_desc_unset := true |}
  | ONode n => ONode n
  end.

(** [wf.__desc__ = None] on a nested workflow *)
Definition unset_desc (l : loc) : build unit :=
  fun _ s => Ok (tt, {| heap := alter obj_unset_desc l (heap s);
                        workflow := workflow s |}).

(** [init_bold_reference_wf(omp_nthreads=.., pre_mask=..)] *)
Definition call_init_bold_reference_wf (omp : Z) (pre_mask : option bool) : build loc :=
  (use "init_bold_reference_wf" >>
   alloc (OWorkflow {| ref_omp_nthreads := omp; ref_pre_mask := pre_mask;
                       ref_desc_unset := false |}))%build.

(** Source side of a connection: a field, or a field with a function. *)
Definition src_port : Type := string * option Modifier.
Definition out (f : string) : src_port := (f, None).
Definition out_fn (f : string) (m : Modifier) : src_port := (f, Some m).

Definition add_node (l : loc) (ns : list loc) : list loc :=
  if bool_decide (l ∈ ns) then ns else ns ++ [l].

Definition connect_group (w : Workflow) (c : loc * loc * list (src_port * string)) : Workflow :=
  let '(u, v, ports) := c in
  {| wf_name := wf_name w;
     wf_desc := wf_desc w;
     wf_nodes := add_node v (add_node u (wf_nodes w));
     wf_conns := wf_conns w ++
       ((fun p : src_port * string =>
           {| src := u; src_field := p.1.1; src_fn := p.1.2;
              dst := v; dst_field := p.2 |}) <$> ports) |}.

(** [workflow.connect([(u, v, [(src, dst), ...]), ...])] *)
Definition connect (cs : list (loc * loc * list (src_port * string))) : build unit :=
  fun _ s => Ok (tt, {| heap := heap s;
                        workflow := foldl connect_group (workflow s) cs |}).

(** ** [os.path.join] (posixpath) on two components *)

Definition startswith_sep (s : string) : bool :=
  match s with
  | String c _ => Ascii.eqb c "/"%char
  | EmptyString => false
  end.

Fixpoint endswith_sep (s : string) : bool :=
  match s with
  | EmptyString => false
  | String c EmptyString => Ascii.eqb c "/"%char
  | String _ s' => endswith_sep s'
  end.

Definition op_join (a b : string) : string :=
  if startswith_sep b then b
  else if String.eqb a "" || endswith_sep a then a +:+ b
  else a +:+ "/" +:+ b.

(** ** The module namespace

    Names bound at module level by the import statements, the assignment of
    [DEFAULT_MEMORY_MIN_GB] and the three [def]s. *)
Definition module_globals : env :=
  [ "op"; "pe"; "niu"; "fs"; "FSLSplit"; "nid"; "GenerateSamplingReference";
    "ApplyTransforms"; "Workflow"; "MultiApplyTransforms"; "Merge";
    "TEMPLATE_MAP"; "init_bold_reference_wf"; "DEFAULT_MEMORY_MIN_GB";
    "init_bold_mni_trans_wf"; "init_dwi_preproc_trans_wf"; "_first" ].

(** ** Module-level helper *)

(** [inlist[0]] *)
Definition _first (inlist : pyval) : result pyval :=
  match inlist with
  | VList [] | VTuple [] | VStr EmptyString => Raise IndexError
  | VList (x :: _) | VTuple (x :: _) => Ok x
  | VStr (String c _) => Ok (VStr (String c EmptyString))
  | VNone | VBool _ | VInt _ => Raise TypeError
  end.

(** [d[k]] on a dict of strings *)
Definition subscript (d : gmap string string) (k : string) : build string :=
  fun _ s => match d !! k with
             | Some v => Ok (v, s)
             | None => Raise (KeyError k)
             end.

(** ** [init_bold_mni_trans_wf] *)

Module MniTrans.

Record args := {
  template : string;
  mem_gb : num;
  omp_nthreads : Z;
  name : string;
  template_out_grid : string;
  use_compression : bool;
  use_fieldwarp : bool
}.

(** The call with the keyword defaults of the signature. *)
Definition with_defaults (template : string) (mem_gb : num) (omp_nthreads : Z) : args :=
  {| template := template; mem_gb := mem_gb; omp_nthreads := omp_nthreads;
     name := "bold_mni_trans_wf"; template_out_grid := "2mm";
     use_compression := true; use_fieldwarp := false |}.

(** The nested helper of lines 122-125. *)
Definition _aslist (in_value : pyval) : pyval :=
  if isinstance_list in_value then in_value else VList [in_value].

Section Env.

(** [TEMPLATE_MAP] comes from [..anatomical] and [nid.get_dataset] from
    niworkflows; both are outside this module and are taken as given, and so
    is the file system, through [isfile]. *)
Variable TEMPLATE_MAP : gmap string string.
Variable get_dataset : string -> string.
Variable isfile : string -> bool.

Definition body (a : args) : build unit :=
  (Workflow_new (name a) >>
   set_desc ("The BOLD time-series were resampled to " +:+ template a +:+ " standard space,
generating a *preprocessed BOLD run in " +:+ template a +:+ " space*.
") >>
   let* inputnode :=
     pe_Node (IdentityInterface
                ["itk_bold_to_t1"; "t1_2_mni_forward_transform"; "name_source";
                 "bold_split"; "bold_mask"; "hmc_xforms"; "fieldwarp"])
             [] "inputnode" no_mem None false in
   let* outputnode :=
     pe_Node (IdentityInterface ["bold_mni"; "bold_mni_ref"; "bold_mask_mni"])
             [] "outputnode" no_mem None false in
   let* gen_ref :=
     pe_Node GenerateSamplingReference [] "gen_ref" (mem (NumDec 3%Z 1)) None false in
   use "TEMPLATE_MAP" >>
   let* template_str := subscript TEMPLATE_MAP (template a) in
   use "op" >> use "nid" >>
   set_file_input isfile gen_ref "fixed_image"
     (op_join (get_dataset template_str) "1mm_T1.nii.gz") >>
   let* mask_mni_tfm :=
     pe_Node ApplyTransforms
             [("interpolation", VStr "MultiLabel"); ("float", VBool true)]
             "mask_mni_tfm" (mem (NumInt 1%Z)) None false in
   let* mask_merge_tfms :=
     pe_Node (NiuMerge 2%Z) [] "mask_merge_tfms" mem_default_min None true in
   let nxforms : Z := (if use_fieldwarp a then 4 else 3)%Z in
   let* merge_xforms :=
     pe_Node (NiuMerge nxforms) [] "merge_xforms" mem_default_min None true in
   connect [(inputnode, merge_xforms, [(out "hmc_xforms", "in" +:+ pretty nxforms)])] >>
   (if use_fieldwarp a
    then connect [(inputnode, merge_xforms, [(out "fieldwarp", "in3")])]
    else ret tt) >>
   use "_first" >>
   connect [
     (inputnode, gen_ref, [(out_fn "bold_split" fn_first, "moving_image")]);
     (inputnode, mask_mni_tfm, [(out "bold_mask", "input_image")]);
     (inputnode, mask_merge_tfms, [(out "t1_2_mni_forward_transform", "in1");
                                   (out_fn "itk_bold_to_t1" fn_aslist_mni, "in2")]);
     (mask_merge_tfms, mask_mni_tfm, [(out "out", "transforms")]);
     (mask_mni_tfm, outputnode, [(out "output_image", "bold_mask_mni")])
   ] >>
   let* bold_to_mni_transform :=
     pe_Node MultiApplyTransforms
             [("interpolation", VStr "LanczosWindowedSinc"); ("float", VBool true);
              ("copy_dtype", VBool true)]
             "bold_to_mni_transform"
             (mem (NumMul (NumMul (mem_gb a) (NumInt 3%Z)) (NumInt (omp_nthreads a))))
             (Some (omp_nthreads a)) false in
   let* merge :=
     pe_Node Merge [("compress", VBool (use_compression a))] "merge"
             (mem (NumMul (mem_gb a) (NumInt 3%Z))) None false in
   let* gen_final_ref :=
     call_init_bold_reference_wf (omp_nthreads a) (Some true) in
   connect [
     (inputnode, merge_xforms, [(out "t1_2_mni_forward_transform", "in1");
                                (out_fn "itk_bold_to_t1" fn_aslist_mni, "in2")]);
     (merge_xforms, bold_to_mni_transform, [(out "out", "transforms")]);
     (inputnode, merge, [(out "name_source", "header_source")]);
     (inputnode, bold_to_mni_transform, [(out "bold_split", "input_image")]);
     (bold_to_mni_transform, merge, [(out "out_files", "in_files")]);
     (merge, gen_final_ref, [(out "out_file", "inputnode.bold_file")]);
     (mask_mni_tfm, gen_final_ref, [(out "output_image", "inputnode.bold_mask")]);
     (merge, outputnode, [(out "out_file", "bold_mni")]);
     (gen_final_ref, outputnode, [(out "outputnode.ref_image", "bold_mni_ref")])
   ] >>
   if String.eqb (template_out_grid a) "native" then
     connect [
       (gen_ref, mask_mni_tfm, [(out "out_file", "reference_image")]);
       (gen_ref, bold_to_mni_transform, [(out "out_file", "reference_image")])
     ]
   else if String.eqb (template_out_grid a) "1mm" || String.eqb (template_out_grid a) "2mm" then
     use "op" >> use "nid" >>
     set_file_input isfile mask_mni_tfm "reference_image"
       (op_join (get_dataset template_str)
                (template_out_grid a +:+ "_brainmask.nii.gz")) >>
     use "op" >> use "nid" >>
     set_file_input isfile bold_to_mni_transform "reference_image"
       (op_join (get_dataset template_str)
                (template_out_grid a +:+ "_T1.nii.gz"))
   else
     set_file_input isfile mask_mni_tfm "reference_image" (template_out_grid a) >>
     set_file_input isfile bold_to_mni_transform "reference_image" (template_out_grid a)
  )%build.

Definition init_bold_mni_trans_wf (a : args) : result state :=
  run module_globals (body a).

(** The paths that a call assigns to [File(exists=True)] inputs are existing
    files: the 1 mm T1 of the template always, and the reference images of
    the chosen grid unless the grid is ['native']. *)
Definition files_present (a : args) (template_str : string) : bool :=
  isfile (op_join (get_dataset template_str) "1mm_T1.nii.gz") &&
  (if String.eqb (template_out_grid a) "native" then true
   else if String.eqb (template_out_grid a) "1mm" || String.eqb (template_out_grid a) "2mm"
   then isfile (op_join (get_dataset template_str)
                        (template_out_grid a +:+ "_brainmask.nii.gz")) &&
        isfile (op_join (get_dataset template_str)
                        (template_out_grid a +:+ "_T1.nii.gz"))
   else isfile (template_out_grid a)).

End Env.

End MniTrans.

(** ** [init_dwi_preproc_trans_wf] *)

Module PreprocTrans.

Record args := {
  mem_gb : num;
  omp_nthreads : Z;
  name : string;
  use_compression : bool;
  use_fieldwarp : bool;
  split_file : bool;
  interpolation : string
}.

(** The call with the keyword defaults of the signature. *)
Definition with_defaults (mem_gb : num) (omp_nthreads : Z) : args :=
  {| mem_gb := mem_gb; omp_nthreads := omp_nthreads;
     name := "bold_preproc_trans_wf"; use_compression := true;
     use_fieldwarp := false; split_file := false;
     interpolation := "LanczosWindowedSinc" |}.

(** The nested helper of lines 343-344. *)
Definition _aslist (val : pyval) : pyval := VList [val].

Definition with_split_file (b : bool) (a : args) : args :=
  {| mem_gb := mem_gb a; omp_nthreads := omp_nthreads a; name := name a;
     use_compression := use_compression a; use_fieldwarp := use_fieldwarp a;
     split_file := b; interpolation := interpolation a |}.

Definition body (a : args) : build unit :=
  (Workflow_new (name a) >>
   set_desc ("The BOLD time-series (including slice-timing correction when applied)
were resampled onto their original, native space by applying
" +:+ (if use_fieldwarp a
       then "a single, composite transform to correct for head-motion and
susceptibility distortions"
       else "the transforms to correct for head-motion") +:+ ".
These resampled BOLD time-series will be referred to as *preprocessed
BOLD in original space*, or just *preprocessed BOLD*.
") >>
   let* autobox_t1 := pe_Node Autobox [] "autobox_t1" no_mem None false in
   set_input autobox_t1 "outputtype" (VStr "NIFTI_GZ") >>
   set_input autobox_t1 "padding" (VInt 5%Z) >>
   let* deoblique_autobox := pe_Node Warp [] "deoblique_autobox" no_mem None false in
   set_input deoblique_autobox "deoblique" (VBool true) >>
   set_input deoblique_autobox "outputtype" (VStr "NIFTI_GZ") >>
   let* resample_to_dwi := pe_Node Resample [] "resample_to_dwi" no_mem None false in
   set_input resample_to_dwi "outputtype" (VStr "NIFTI_GZ") >>
   let* dwi_info := pe_Node NiftiInfo [] "dwi_info" no_mem None false in
   let* inputnode :=
     pe_Node (IdentityInterface
                ["name_source"; "bold_file"; "bold_mask"; "hmc_xforms"; "fieldwarp"])
             [] "inputnode" no_mem None false in
   let* outputnode :=
     pe_Node (IdentityInterface ["bold"; "bold_mask"; "bold_ref"; "bold_ref_brain"])
             [] "outputnode" no_mem None false in
   let* bold_transform :=
     pe_Node MultiApplyTransforms
             [("interpolation", VStr (interpolation a)); ("float", VBool true);
              ("copy_dtype", VBool true)]
             "bold_transform"
             (mem (NumMul (NumMul (mem_gb a) (NumInt 3%Z)) (NumInt (omp_nthreads a))))
             (Some (omp_nthreads a)) false in
   let* merge :=
     pe_Node Merge [("compress", VBool (use_compression a))] "merge"
             (mem (NumMul (mem_gb a) (NumInt 3%Z))) None false in
   let* bold_reference_wf := call_init_bold_reference_wf (omp_nthreads a) None in
   unset_desc bold_reference_wf >>
   connect [
     (inputnode, merge, [(out "name_source", "header_source")]);
     (bold_transform, merge, [(out "out_files", "in_files")]);
     (merge, bold_reference_wf, [(out "out_file", "inputnode.bold_file")]);
     (merge, outputnode, [(out "out_file", "bold")]);
     (bold_reference_wf, outputnode, [
        (out "outputnode.ref_image", "bold_ref");
        (out "outputnode.ref_image_brain", "bold_ref_brain");
        (out "outputnode.bold_mask", "bold_mask")])
   ] >>
   (if split_file a then
      let* bold_split :=
        pe_Node FSLSplit [("dimension", VStr "t")] "bold_split"
                (mem (NumMul (mem_gb a) (NumInt 3%Z))) None false in
      use "_first" >>
      connect [
        (inputnode, bold_split, [(out "bold_file", "in_file")]);
        (bold_split, bold_transform, [
           (out "out_files", "input_image");
           (out_fn "out_files" fn_first, "reference_image")])
      ]
    else
      use "_first" >>
      connect [
        (inputnode, bold_transform, [
           (out "bold_file", "input_image");
           (out_fn "bold_file" fn_first, "reference_image")])
      ]) >>
   if use_fieldwarp a then
     let* merge_xforms :=
       pe_Node (NiuMerge 2%Z) [] "merge_xforms" mem_default_min None true in
     connect [
       (inputnode, merge_xforms, [(out "fieldwarp", "in1"); (out "hmc_xforms", "in2")]);
       (merge_xforms, bold_transform, [(out "out", "transforms")])
     ]
   else
     connect [
       (inputnode, bold_transform, [(out_fn "hmc_xforms" fn_aslist_dwi, "transforms")])
     ]
  )%build.

Definition init_dwi_preproc_trans_wf (a : args) : result state :=
  run module_globals (body a).

End PreprocTrans.

(** ** Observing a constructed workflow *)

(** What a function attached to a connection does to the value it carries. *)
Definition apply_modifier (m : option Modifier) (v : pyval) : result pyval :=
  match m with
  | None => Ok v
  | Some fn_first => _first v
  | Some fn_aslist_mni => Ok (MniTrans._aslist v)
  | Some fn_aslist_dwi => Ok (PreprocTrans._aslist v)
  end.

Definition obj_name (o : engine_obj) : option string :=
  match o with
  | ONode n => Some (node_name n)
  | OWorkflow _ => None
  end.

(** The nodes registered in the graph, read through the store. *)
Definition graph_nodes (s : state) : list Node :=
  omap (fun l => match heap s !! l with
                 | Some (ONode n) => Some n
                 | _ => None
                 end) (wf_nodes (workflow s)).

Definition find_node (s : state) (nm : string) : option (loc * Node) :=
  list_find (fun p : loc * Node => node_name p.2 = nm)
            (omap (fun l => match heap s !! l with
                            | Some (ONode n) => Some (l, n)
                            | _ => None
                            end) (wf_nodes (workflow s)))
  ≫= fun r => Some r.2.

Definition name_at (s : state) (l : loc) : option string :=
  heap s !! l ≫= obj_name.

(** A connection with its end points given by node name. *)
Record Wire := {
  from_node : option string;
  from_field : string;
  via : option Modifier;
  to_node : option string;
  to_field : string
}.

#[global] Instance Wire_eq_dec : EqDecision Wire.
Proof. solve_decision. Defined.

Definition wire_of (s : state) (c : Conn) : Wire :=
  {| from_node := name_at s (src c); from_field := src_field c; via := src_fn c;
     to_node := name_at s (dst c); to_field := dst_field c |}.

Definition wires (s : state) : list Wire := wire_of s <$> wf_conns (workflow s).

Definition wire (u f : string) (m : option Modifier) (v g : string) : Wire :=
  {| from_node := Some u; from_field := f; via := m; to_node := Some v; to_field := g |}.

(** The wires that arrive at input [g] of the node named [v], in the order in
    which they were declared. *)
Definition feeds (s : state) (v g : string) : list Wire :=
  filter (fun w => to_node w = Some v /\ to_field w = g) (wires s).

(** The wires that leave the node named [u]. *)
Definition leaving (s : state) (u : string) : list Wire :=
  filter (fun w => from_node w = Some u) (wires s).

(** The statically assigned value of input [k] of the node named [nm]. *)
Definition static_input (s : state) (nm k : string) : option pyval :=
  find_node s nm ≫= fun p =>
  list_find (fun kv : string * pyval => kv.1 = k) (inputs p.2) ≫= fun r => Some r.2.2.

(** Graph edges between locations, and acyclicity. *)
Definition edge (s : state) (u v : loc) : Prop :=
  exists c, c ∈ wf_conns (workflow s) /\ src c = u /\ dst c = v.

Definition acyclic (s : state) : Prop := forall n, ~ tc (edge s) n n.

(** The wires from output [f] of node [u] into node [v]. *)
Definition between (s : state) (u f v : string) : list Wire :=
  filter (fun w => from_node w = Some u /\ from_field w = f /\ to_node w = Some v)
         (wires s).

(** The value a wire hands to its destination when the source node holds
    the values [rho] on its output fields. *)
Definition carried (rho : string -> pyval) (w : Wire) : result pyval :=
  apply_modifier (via w) (rho (from_field w)).

(** The ranking used for acyclicity of the graph of
    [init_bold_mni_trans_wf]: the position of each node in a topological
    order ([inputnode] first, [outputnode] last), indexed by location. *)
Definition mni_rank (l : loc) : nat :=
  default 0 ([0; 5; 1; 2; 1; 1; 2; 3; 4] !! l).

(** Nesting depth of a value. *)
Fixpoint depth (v : pyval) : nat :=
  match v with
  | VList l | VTuple l => S (list_max (map depth l))
  | _ => 0
  end.

(** The module namespace with the two names the module leaves unbound. *)
Definition repaired_globals : env := "afni" :: "NiftiInfo" :: module_globals.

(** Sample surroundings for concrete runs: the template table of the
    anatomical workflows and a dataset directory. *)
Definition sample_TEMPLATE_MAP : gmap string string :=
  {[ "MNI152NLin2009cAsym" := "mni_icbm152_nlin_asym_09c" ]}.
Definition sample_get_dataset (d : string) : string := "/templates/" +:+ d.

(** A file system that holds the template images and one custom reference. *)
Definition sample_isfile (p : string) : bool :=
  bool_decide (p ∈ [ "/templates/mni_icbm152_nlin_asym_09c/1mm_T1.nii.gz";
                     "/templates/mni_icbm152_nlin_asym_09c/1mm_brainmask.nii.gz";
                     "/templates/mni_icbm152_nlin_asym_09c/2mm_T1.nii.gz";
                     "/templates/mni_icbm152_nlin_asym_09c/2mm_brainmask.nii.gz";
                     "/data/ref/custom_grid.nii.gz" ]).

(** The call shown in the docstring of [init_bold_mni_trans_wf]. *)
Definition sample_mni_args : MniTrans.args :=
  {| MniTrans.template := "MNI152NLin2009cAsym"; MniTrans.mem_gb := NumInt 3;
     MniTrans.omp_nthreads := 1; MniTrans.name := "bold_mni_trans_wf";
     MniTrans.template_out_grid := "native"; MniTrans.use_compression := true;
     MniTrans.use_fieldwarp := false |}.

(** Values held by the fields of [inputnode] in a sample run. *)
Definition sample_rho (f : string) : pyval := VStr (f +:+ ".txt").

(** ** Further observations on a constructed workflow *)

(** The wires that enter the node named [v]. *)
Definition entering (s : state) (v : string) : list Wire :=
  filter (fun w => to_node w = Some v) (wires s).

(** The input ports that receive a connection, one entry per connection. *)
Definition input_ports (s : state) : list (loc * string) :=
  (fun c => (dst c, dst_field c)) <$> wf_conns (workflow s).

(** The input ports of graph nodes that hold a statically assigned value. *)
Definition static_ports (s : state) : list (loc * string) :=
  l ← wf_nodes (workflow s);
  match heap s !! l with
  | Some (ONode n) => (fun kv : string * pyval => (l, kv.1)) <$> inputs n
  | _ => []
  end.

(** The fields declared by the [IdentityInterface] of the node named [nm]. *)
Definition declared_fields (s : state) (nm : string) : list string :=
  match find_node s nm with
  | Some (_, n) =>
      match interface n with
      | IdentityInterface fs => fs
      | _ => []
      end
  | None => []
  end.

(** Direct successors of a location, and the locations reached from it in at
    most [fuel] steps. *)
Definition succs (s : state) (u : loc) : list loc :=
  dst <$> filter (fun c => src c = u) (wf_conns (workflow s)).

Fixpoint reach (s : state) (fuel : nat) (u : loc) : list loc :=
  match fuel with
  | 0 => [u]
  | S n => u :: (v ← succs s u; reach s n v)
  end.

(** A set of locations that no connection leaves. *)
Definition closed_under (s : state) (S : list loc) : bool :=
  forallb (fun c => implb (bool_decide (src c ∈ S)) (bool_decide (dst c ∈ S)))
          (wf_conns (workflow s)).

(** The shape of the graph of [init_bold_mni_trans_wf] for each value of the
    two switches that steer the wiring, read off a run. *)
Definition mni_shape (fieldwarp native : bool) : list loc * list Conn * list Wire :=
  match MniTrans.init_bold_mni_trans_wf sample_TEMPLATE_MAP sample_get_dataset
          sample_isfile
          {| MniTrans.template := "MNI152NLin2009cAsym"; MniTrans.mem_gb := NumInt 3;
             MniTrans.omp_nthreads := 1; MniTrans.name := "bold_mni_trans_wf";
             MniTrans.template_out_grid := if native then "native" else "2mm";
             MniTrans.use_compression := true;
             MniTrans.use_fieldwarp := fieldwarp |} with
  | Ok s => (wf_nodes (workflow s), wf_conns (workflow s), wires s)
  | Raise _ => ([], [], [])
  end.

(** Two namespaces that bind the same names among [N]. *)
Definition agree (N : list string) (g g' : env) : Prop :=
  forall x, x ∈ N -> (x ∈ g <-> x ∈ g').

(** A computation whose outcome depends on the namespace only through the
    names in [N]. *)
Definition stable {A} (N : list string) (m : build A) : Prop :=
  forall g g' s, agree N g g' -> m g s = m g' s.

(** A ranking of the locations allocated by [init_dwi_preproc_trans_wf]. *)
Definition dwi_rank (l : loc) : nat :=
  default 0 ([0; 0; 0; 0; 0; 5; 2; 3; 4; 1; 1] !! l).

(** A second call with the same two switches as [sample_mni_args] and
    every other keyword changed. *)
Definition sample_mni_args_2 : MniTrans.args :=
  {| MniTrans.template := "MNI152NLin2009cAsym"; MniTrans.mem_gb := NumDec 25 1;
     MniTrans.omp_nthreads := 8; MniTrans.name := "func_to_mni";
     MniTrans.template_out_grid := "native"; MniTrans.use_compression := false;
     MniTrans.use_fieldwarp := false |}.

(** The docstring call on the 2 mm grid, on a custom grid whose file exists,
    on the 1 mm grid with the field warp, and on a custom grid whose file
    does not exist. *)
Definition sample_mni_args_2mm : MniTrans.args :=
  {| MniTrans.template := "MNI152NLin2009cAsym"; MniTrans.mem_gb := NumInt 3;
     MniTrans.omp_nthreads := 1; MniTrans.name := "bold_mni_trans_wf";
     MniTrans.template_out_grid := "2mm"; MniTrans.use_compression := true;
     MniTrans.use_fieldwarp := false |}.

Definition sample_mni_args_custom : MniTrans.args :=
  {| MniTrans.template := "MNI152NLin2009cAsym"; MniTrans.mem_gb := NumInt 3;
     MniTrans.omp_nthreads := 1; MniTrans.name := "bold_mni_trans_wf";
     MniTrans.template_out_grid := "/data/ref/custom_grid.nii.gz";
     MniTrans.use_compression := true; MniTrans.use_fieldwarp := false |}.

Definition sample_mni_args_warp : MniTrans.args :=
  {| MniTrans.template := "MNI152NLin2009cAsym"; MniTrans.mem_gb := NumInt 3;
     MniTrans.omp_nthreads := 1; MniTrans.name := "bold_mni_trans_wf";
     MniTrans.template_out_grid := "1mm"; MniTrans.use_compression := true;
     MniTrans.use_fieldwarp := true |}.

Definition sample_mni_args_missing : MniTrans.args :=
  {| MniTrans.template := "MNI152NLin2009cAsym"; MniTrans.mem_gb := NumInt 3;
     MniTrans.omp_nthreads := 1; MniTrans.name := "bold_mni_trans_wf";
     MniTrans.template_out_grid := "/nonexistent/ref.nii.gz";
     MniTrans.use_compression := true; MniTrans.use_fieldwarp := false |}.

(** ** Calls in a store that already holds objects *)

(** A call made when the store already holds the objects [h], left there by
    earlier calls; the local [workflow] starts unbound. *)
Definition run_from (h : list engine_obj) (g : env) (m : build unit) : result state :=
  match m g {| heap := h; workflow := workflow empty_state |} with
  | Ok (_, s) => Ok s
  | Raise e => Raise e
  end.

(** [init_bold_mni_trans_wf(...)] called in the store [h]. *)
Definition mni_call_in (TEMPLATE_MAP : gmap string string)
    (get_dataset : string -> string) (isfile : string -> bool)
    (h : list engine_obj) (a : MniTrans.args) : result state :=
  run_from h module_globals (MniTrans.body TEMPLATE_MAP get_dataset isfile a).

(** The objects of the graph, nested workflow included, read through the
    store. *)
Definition graph_objects (s : state) : list engine_obj :=
  omap (fun l => heap s !! l) (wf_nodes (workflow s)).

(** Two graphs with the same objects (hence the same settings), the same
    connections by name, the same name and description. *)
Definition same_graph (s1 s2 : state) : Prop :=
  graph_objects s1 = graph_objects s2 /\
  wires s1 = wires s2 /\
  wf_name (workflow s1) = wf_name (workflow s2) /\
  wf_desc (workflow s1) = wf_desc (workflow s2).

(** Two calls with the same outcome: the same exception, or the same graph. *)
Definition same_outcome (r1 r2 : result state) : Prop :=
  match r1, r2 with
  | Ok s1, Ok s2 => same_graph s1 s2
  | Raise e1, Raise e2 => e1 = e2
  | _, _ => False
  end.

(** A state as it appears when the store holds [h] in front of its objects:
    every location is moved up by the length of [h]. *)
Definition shift_conn (n : nat) (c : Conn) : Conn :=
  {| src := n + src c; src_field := src_field c; src_fn := src_fn c;
     dst := n + dst c; dst_field := dst_field c |}.

Definition shift_wf (n : nat) (w : Workflow) : Workflow :=
  {| wf_name := wf_name w; wf_desc := wf_desc w;
     wf_nodes := (fun l => n + l) <$> wf_nodes w;
     wf_conns := shift_conn n <$> wf_conns w |}.

Definition lift (h : list engine_obj) (s : state) : state :=
  {| heap := h ++ heap s; workflow := shift_wf (length h) (workflow s) |}.

Definition lift_result {A} (f : A -> A) (h : list engine_obj)
    (r : result (A * state)) : result (A * state) :=
  match r with
  | Ok (a, s) => Ok (f a, lift h s)
  | Raise e => Raise e
  end.

Definition shift_group (n : nat) (c : loc * loc * list (src_port * string)) :
    loc * loc * list (src_port * string) :=
  let '(u, v, ports) := c in (n + u, n + v, ports).

(** [m'] does in a store with [n] earlier objects what [m] does in the empty
    one, up to the move of the locations ([sh] moves the returned value). *)
Definition relocates {A} (n : nat) (sh : nat -> A -> A) (m m' : build A) : Prop :=
  forall g s h, length h = n -> m' g (lift h s) = lift_result (sh n) h (m g s).

(** The store left by a first docstring call. *)
Definition sample_store : list engine_obj :=
  match MniTrans.init_bold_mni_trans_wf sample_TEMPLATE_MAP sample_get_dataset
          sample_isfile sample_mni_args with
  | Ok s => heap s
  | Raise _ => []
  end.

(** Another installation: the templates live elsewhere, except the one the
    docstring call uses. *)
Definition sample_get_dataset_2 (d : string) : string :=
  if String.eqb d "mni_icbm152_nlin_asym_09c" then "/templates/" +:+ d
  else "/srv/atlases/" +:+ d.

(** A template table with a second entry. *)
Definition sample_TEMPLATE_MAP_2 : gmap string string :=
  <[ "OASIS" := "oasis" ]> sample_TEMPLATE_MAP.

(** The call shown in the docstring of [init_dwi_preproc_trans_wf]. *)
Definition sample_dwi_args : PreprocTrans.args :=
  PreprocTrans.with_defaults (NumInt 3) 1.

(** * Properties *)

(** ** The list-shaping helpers *)

(** C7: the [_aslist] nested in [init_bold_mni_trans_wf] returns a list
    argument unchanged, wraps every other value in a one-element list, and is
    idempotent. *)
Theorem aslist_mni_idempotent :
  (forall l, MniTrans._aslist (VList l) = VList l) /\
  MniTrans._aslist VNone = VList [VNone] /\
  (forall b, MniTrans._aslist (VBool b) = VList [VBool b]) /\
  (forall z, MniTrans._aslist (VInt z) = VList [VInt z]) /\
  (forall s, MniTrans._aslist (VStr s) = VList [VStr s]) /\
  (forall l, MniTrans._aslist (VTuple l) = VList [VTuple l]) /\
  (forall v, MniTrans._aslist (MniTrans._aslist v) = MniTrans._aslist v).
Proof.
  repeat split; try reflexivity.
  intros v. unfold MniTrans._aslist.
  destruct (isinstance_list v) eqn:E; [by rewrite E | reflexivity].
Qed.

(** C8: on a list, [_first] returns the head when there is one and raises
    [IndexError] exactly on the empty list; no other error arises on lists. *)
Theorem first_of_list :
  (forall x l, _first (VList (x :: l)) = Ok x) /\
  _first (VList []) = Raise IndexError /\
  (forall l, raises (_first (VList l)) = true <-> l = []) /\
  (forall l, _first (VList l) =
             match head l with Some x => Ok x | None => Raise IndexError end).
Proof.
  repeat split; try reflexivity.
  - destruct l; [reflexivity | discriminate].
  - intros ->. reflexivity.
  - destruct l; reflexivity.
Qed.

(** ** Acyclicity from a ranking of the nodes *)

Lemma tc_edge_rank (s : state) (rank : loc -> nat) :
  (forall c, c ∈ wf_conns (workflow s) -> rank (src c) < rank (dst c)) ->
  forall u v, tc (edge s) u v -> rank u < rank v.
Proof.
  intros Hrank u v Huv.
  induction Huv as [u v (c & Hc & <- & <-) | u w v (c & Hc & <- & <-) _ IH].
  - by apply Hrank.
  - specialize (Hrank c Hc). lia.
Qed.

Lemma ranked_acyclic (s : state) (rank : loc -> nat) :
  forallb (fun c => rank (src c) <? rank (dst c)) (wf_conns (workflow s)) = true ->
  acyclic s.
Proof.
  intros Hall n Hn.
  assert (rank n < rank n); [|lia].
  apply (tc_edge_rank s rank); [|done].
  intros c Hc. apply Nat.ltb_lt.
  rewrite List.forallb_forall in Hall. apply Hall. by apply list_elem_of_In.
Qed.

(** ** Stepping through a construction *)

Lemma run_exec (g : env) (m : build unit) : run g m = exec g empty_state m.
Proof. reflexivity. Qed.

Lemma exec_bind_ok {A} (g : env) (s : state) (m : build A) (k : A -> build unit)
    (a : A) (s1 : state) :
  m g s = Ok (a, s1) -> exec g s (bind m k) = exec g s1 (k a).
Proof. intros H. unfold exec, bind. by rewrite H. Qed.

Lemma exec_bind_raise {A} (g : env) (s : state) (m : build A) (k : A -> build unit)
    (e : exn) :
  m g s = Raise e -> exec g s (bind m k) = Raise e.
Proof. intros H. unfold exec, bind. by rewrite H. Qed.

(** Python's [==] on strings, turned into an equation or a disequation. *)
Lemma str_eqb_cases (x y : string) :
  (String.eqb x y = true /\ x = y) \/ (String.eqb x y = false /\ x <> y).
Proof. destruct (String.eqb_spec x y); auto. Qed.

(** One statement of the body, evaluated. *)
Ltac exec_step :=
  match goal with
  | |- context [exec ?g ?s (bind ?m ?k)] =>
      rewrite (exec_bind_ok g s m k _ _ ltac:(vm_compute; reflexivity)); cbv beta
  end.

Ltac mni_run := eexists; split; [vm_compute; reflexivity|].
Ltac in_list := apply (bool_decide_unpack _); vm_compute; exact I.
Ltac not_in_list H := apply (bool_decide_pack _) in H; vm_compute in H; destruct H.
Ltac decide_vm := apply (bool_decide_unpack _); vm_compute; exact I.

(** Case analysis on the flags that steer the construction of
    [init_bold_mni_trans_wf], after the name has been accepted and the
    template looked up; [isfile] is the file system of the call. *)
Ltac mni_cases_in isfile a Hv Ht Hf :=
  destruct a as [tpl mem omp nm tog uc ufw];
  unfold MniTrans.files_present in Hf;
  cbn [MniTrans.template MniTrans.mem_gb MniTrans.omp_nthreads MniTrans.name
       MniTrans.template_out_grid MniTrans.use_compression
       MniTrans.use_fieldwarp] in *;
  revert Hf;
  unfold MniTrans.init_bold_mni_trans_wf, MniTrans.body, subscript, Workflow_new;
  cbn [MniTrans.template MniTrans.mem_gb MniTrans.omp_nthreads MniTrans.name
       MniTrans.template_out_grid MniTrans.use_compression
       MniTrans.use_fieldwarp];
  rewrite Hv, Ht, run_exec;
  do 7 exec_step;
  unfold set_file_input;
  destruct ufw;
  (destruct (str_eqb_cases tog "native") as [[-> ?]|[-> ?]];
   [|destruct (str_eqb_cases tog "1mm") as [[-> ?]|[-> ?]];
     [|destruct (str_eqb_cases tog "2mm") as [[-> ?]|[-> ?]]]]);
  try subst tog;
  cbn [orb andb];
  intros Hf;
  repeat match goal with
         | H : _ && _ = true |- _ => apply andb_true_iff in H as [? ?]
         end;
  repeat match goal with
         | H : isfile _ = true |- _ => rewrite !H; clear H
         end.

(** ** [init_bold_mni_trans_wf] *)

Section MniProperties.

Import MniTrans.

Variable TEMPLATE_MAP : gmap string string.
Variable get_dataset : string -> string.
Variable isfile : string -> bool.

Local Abbreviation init_mni :=
  (init_bold_mni_trans_wf TEMPLATE_MAP get_dataset isfile).
Local Abbreviation files_ok := (files_present get_dataset isfile).

Ltac mni_cases a Hv Ht Hf := mni_cases_in isfile a Hv Ht Hf.

(** With a name the engine accepts, a template known to [TEMPLATE_MAP] and
    the assigned files in place, the call returns. *)
Lemma mni_returns (a : args) (t : string) :
  valid_name (name a) = true ->
  TEMPLATE_MAP !! template a = Some t ->
  files_ok a t = true ->
  exists s, init_mni a = Ok s.
Proof. intros Hv Ht Hf. mni_cases a Hv Ht Hf; eexists; vm_compute; reflexivity. Qed.

(** An ASCII name that the engine rejects makes the first statement raise. *)
Lemma mni_invalid_name (a : args) :
  ascii_only (name a) = true ->
  valid_name (name a) = false ->
  init_mni a = Raise ValueError.
Proof.
  intros _ Hv. destruct a as [tpl mem omp nm tog uc ufw]; cbn [name] in *.
  unfold init_bold_mni_trans_wf, body, Workflow_new; cbn [template name].
  rewrite Hv. vm_compute. reflexivity.
Qed.

(** A template outside [TEMPLATE_MAP] makes the subscript raise. *)
Lemma mni_unknown_template (a : args) :
  valid_name (name a) = true ->
  TEMPLATE_MAP !! template a = None ->
  init_mni a = Raise (KeyError (template a)).
Proof.
  intros Hv Ht. destruct a as [tpl mem omp nm tog uc ufw]; cbn [template name] in *.
  unfold init_bold_mni_trans_wf, body, subscript, Workflow_new; cbn [template name].
  rewrite Hv, Ht. vm_compute. reflexivity.
Qed.

(** A path assigned to a [File(exists=True)] input that is not an existing
    file makes the assignment raise. *)
Lemma mni_missing_file (a : args) (t : string) :
  valid_name (name a) = true ->
  TEMPLATE_MAP !! template a = Some t ->
  files_ok a t = false ->
  init_mni a = Raise TraitError.
Proof.
  intros Hv Ht Hf. destruct a as [tpl mem omp nm tog uc ufw].
  unfold files_present in Hf.
  cbn [template mem_gb omp_nthreads name template_out_grid use_compression
       use_fieldwarp] in *.
  revert Hf.
  unfold init_bold_mni_trans_wf, body, subscript, Workflow_new.
  cbn [template mem_gb omp_nthreads name template_out_grid use_compression
       use_fieldwarp].
  rewrite Hv, Ht, run_exec.
  do 7 exec_step.
  unfold set_file_input.
  destruct ufw;
  (destruct (str_eqb_cases tog "native") as [[-> ?]|[-> ?]];
   [|destruct (str_eqb_cases tog "1mm") as [[-> ?]|[-> ?]];
     [|destruct (str_eqb_cases tog "2mm") as [[-> ?]|[-> ?]]]]);
  try subst tog; cbn [orb andb].
  all: repeat match goal with
              | |- context [isfile ?p] => destruct (isfile p) eqn:?
              end.
  all: cbn [andb]; intros Hf; try discriminate Hf; vm_compute; reflexivity.
Qed.

(** The graph has one node per [pe.Node] of the body plus the nested
    reference workflow, and their names are pairwise distinct. *)
Lemma mni_graph_node_names (a : args) (t : string) :
  valid_name (name a) = true ->
  TEMPLATE_MAP !! template a = Some t ->
  files_ok a t = true ->
  exists s,
    init_mni a = Ok s /\
    length (wf_nodes (workflow s)) = 9 /\
    NoDup (wf_nodes (workflow s)) /\
    node_name <$> graph_nodes s ≡ₚ
      ["inputnode"; "outputnode"; "gen_ref"; "mask_mni_tfm"; "mask_merge_tfms";
       "merge_xforms"; "bold_to_mni_transform"; "merge"].
Proof.
  intros Hv Ht Hf. mni_cases a Hv Ht Hf; eexists.
  all: split; [vm_compute; reflexivity|].
  all: split; [vm_compute; reflexivity|].
  all: split; [apply (bool_decide_unpack _); vm_compute; exact I|].
  all: vm_compute; solve_Permutation.
Qed.

(** C2: [merge_xforms] has four input slots with the field warp and three
    without; [hmc_xforms] is wired to the last of them and to no other, and
    [fieldwarp] is wired to [in3] exactly when [use_fieldwarp] holds. *)
Theorem merge_xforms_slots (a : args) (t : string) :
  valid_name (name a) = true ->
  TEMPLATE_MAP !! template a = Some t ->
  files_ok a t = true ->
  exists s l n g,
    init_mni a = Ok s /\
    find_node s "merge_xforms" = Some (l, n) /\
    filter (fun m => node_name m = "merge_xforms") (graph_nodes s) = [n] /\
    interface n = NiuMerge (if use_fieldwarp a then 4 else 3) /\
    input_slots (interface n) =
      (if use_fieldwarp a then ["in1"; "in2"; "in3"; "in4"] else ["in1"; "in2"; "in3"]) /\
    last (input_slots (interface n)) = Some g /\
    g = (if use_fieldwarp a then "in4" else "in3") /\
    between s "inputnode" "hmc_xforms" "merge_xforms" =
      [wire "inputnode" "hmc_xforms" None "merge_xforms" g] /\
    (wire "inputnode" "fieldwarp" None "merge_xforms" "in3" ∈ wires s
     <-> use_fieldwarp a = true) /\
    between s "inputnode" "fieldwarp" "merge_xforms" =
      (if use_fieldwarp a
       then [wire "inputnode" "fieldwarp" None "merge_xforms" "in3"] else []).
Proof.
  intros Hv Ht Hf. mni_cases a Hv Ht Hf; do 4 eexists.
  all: split; [vm_compute; reflexivity|].
  all: repeat (split; [vm_compute; reflexivity|]).
  all: split; [|vm_compute; reflexivity].
  all: split; [first [intros _; reflexivity | let H := fresh in intros H; not_in_list H]
              | first [intros _; in_list | discriminate]].
Qed.

(** C3: the slots of [merge_xforms], read in order, receive the forward
    transform, [itk_bold_to_t1] as a list (the value itself when it is a
    list, the one-element list holding it otherwise), the field warp (only
    with [use_fieldwarp]) and last [hmc_xforms]; the merged list goes to the
    [transforms] input of [bold_to_mni_transform], which has no other source. *)
Theorem composite_transform_order (a : args) (t : string) (rho : string -> pyval) :
  valid_name (name a) = true ->
  TEMPLATE_MAP !! template a = Some t ->
  files_ok a t = true ->
  exists s l n,
    init_mni a = Ok s /\
    find_node s "merge_xforms" = Some (l, n) /\
    feeds s "merge_xforms" <$> input_slots (interface n) =
      [[wire "inputnode" "t1_2_mni_forward_transform" None "merge_xforms" "in1"];
       [wire "inputnode" "itk_bold_to_t1" (Some fn_aslist_mni) "merge_xforms" "in2"]] ++
      (if use_fieldwarp a
       then [[wire "inputnode" "fieldwarp" None "merge_xforms" "in3"];
             [wire "inputnode" "hmc_xforms" None "merge_xforms" "in4"]]
       else [[wire "inputnode" "hmc_xforms" None "merge_xforms" "in3"]]) /\
    carried rho <$> concat (feeds s "merge_xforms" <$> input_slots (interface n)) =
      [Ok (rho "t1_2_mni_forward_transform");
       Ok (if isinstance_list (rho "itk_bold_to_t1")
           then rho "itk_bold_to_t1"
           else VList [rho "itk_bold_to_t1"])] ++
      (if use_fieldwarp a then [Ok (rho "fieldwarp")] else []) ++
      [Ok (rho "hmc_xforms")] /\
    leaving s "merge_xforms" =
      [wire "merge_xforms" "out" None "bold_to_mni_transform" "transforms"] /\
    feeds s "bold_to_mni_transform" "transforms" =
      [wire "merge_xforms" "out" None "bold_to_mni_transform" "transforms"].
Proof.
  intros Hv Ht Hf. mni_cases a Hv Ht Hf; do 3 eexists.
  all: split; [vm_compute; reflexivity|].
  all: repeat split; vm_compute; reflexivity.
Qed.

(** Brings a hypothesis on a template file into the form the body uses. *)
Ltac file_form t H :=
  lazymatch type of H with
  | isfile _ = ?b =>
      first
        [ change (isfile (op_join (get_dataset t) ("1mm" +:+ "_brainmask.nii.gz")) = b) in H
        | change (isfile (op_join (get_dataset t) ("1mm" +:+ "_T1.nii.gz")) = b) in H
        | change (isfile (op_join (get_dataset t) ("2mm" +:+ "_brainmask.nii.gz")) = b) in H
        | change (isfile (op_join (get_dataset t) ("2mm" +:+ "_T1.nii.gz")) = b) in H
        | idtac ]
  end.

(** A file [f] of the template dataset [t]: the directory given by
    [get_dataset], a separator unless the directory is empty or ends with one,
    and the file name. *)
Local Abbreviation in_dataset t f :=
  (if String.eqb (get_dataset t) "" || endswith_sep (get_dataset t)
   then get_dataset t +:+ f
   else get_dataset t +:+ "/" +:+ f).

(** C4 (amended): the three-way choice of the output grid.  With ['native']
    both reference images are wired from [gen_ref].  With ['1mm'] or ['2mm']
    they are the brain-mask and T1 files of that grid in the template
    dataset, with any other string they are that string itself, in both cases
    provided the path is an existing file: otherwise the assignment raises
    [TraitError] and no workflow is returned. *)
Theorem output_grid_dispatch (a : args) (t : string) :
  valid_name (name a) = true ->
  TEMPLATE_MAP !! template a = Some t ->
  isfile (in_dataset t "1mm_T1.nii.gz") = true ->
  (template_out_grid a = "native" ->
     exists s,
       init_mni a = Ok s /\
       feeds s "mask_mni_tfm" "reference_image" =
         [wire "gen_ref" "out_file" None "mask_mni_tfm" "reference_image"] /\
       feeds s "bold_to_mni_transform" "reference_image" =
         [wire "gen_ref" "out_file" None "bold_to_mni_transform" "reference_image"] /\
       static_input s "mask_mni_tfm" "reference_image" = None /\
       static_input s "bold_to_mni_transform" "reference_image" = None) /\
  (template_out_grid a = "1mm" \/ template_out_grid a = "2mm" ->
     (isfile (in_dataset t (template_out_grid a +:+ "_brainmask.nii.gz")) = true ->
      isfile (in_dataset t (template_out_grid a +:+ "_T1.nii.gz")) = true ->
        exists s,
          init_mni a = Ok s /\
          static_input s "mask_mni_tfm" "reference_image" =
            Some (VStr (in_dataset t (template_out_grid a +:+ "_brainmask.nii.gz"))) /\
          static_input s "bold_to_mni_transform" "reference_image" =
            Some (VStr (in_dataset t (template_out_grid a +:+ "_T1.nii.gz"))) /\
          feeds s "mask_mni_tfm" "reference_image" = [] /\
          feeds s "bold_to_mni_transform" "reference_image" = []) /\
     (isfile (in_dataset t (template_out_grid a +:+ "_brainmask.nii.gz")) = false \/
      isfile (in_dataset t (template_out_grid a +:+ "_T1.nii.gz")) = false ->
        init_mni a = Raise TraitError)) /\
  (template_out_grid a <> "native" -> template_out_grid a <> "1mm" ->
   template_out_grid a <> "2mm" ->
     (isfile (template_out_grid a) = true ->
        exists s,
          init_mni a = Ok s /\
          static_input s "mask_mni_tfm" "reference_image" =
            Some (VStr (template_out_grid a)) /\
          static_input s "bold_to_mni_transform" "reference_image" =
            Some (VStr (template_out_grid a)) /\
          feeds s "mask_mni_tfm" "reference_image" = [] /\
          feeds s "bold_to_mni_transform" "reference_image" = []) /\
     (isfile (template_out_grid a) = false -> init_mni a = Raise TraitError)).
Proof.
  intros Hv Ht Hfix.
  destruct a as [tpl mem omp nm tog uc ufw].
  cbn [template mem_gb omp_nthreads name template_out_grid use_compression
       use_fieldwarp] in *.
  change (isfile (op_join (get_dataset t) "1mm_T1.nii.gz") = true) in Hfix.
  unfold init_bold_mni_trans_wf, body, subscript, Workflow_new.
  cbn [template mem_gb omp_nthreads name template_out_grid use_compression
       use_fieldwarp].
  rewrite Hv, Ht, run_exec.
  do 7 exec_step.
  unfold set_file_input. rewrite !Hfix.
  destruct ufw;
  (destruct (str_eqb_cases tog "native") as [[-> ?]|[-> ?]];
   [|destruct (str_eqb_cases tog "1mm") as [[-> ?]|[-> ?]];
     [|destruct (str_eqb_cases tog "2mm") as [[-> ?]|[-> ?]]]]);
  try subst tog; cbn [orb andb].
  all: split; [|split].
  all: try (intros ?; discriminate).
  all: try (intros [?|?]; discriminate).
  all: try (intros; congruence).
  all: try (intros [?|?]; congruence).
  (* the branch that applies *)
  all: intros.
  all: try (eexists; split; [vm_compute; reflexivity|];
            repeat split; vm_compute; reflexivity).
  all: split.
  (* the files exist *)
  all: try (intros;
            repeat match goal with
                   | H : isfile _ = true |- _ => file_form t H; rewrite !H; clear H
                   end;
            eexists; split; [vm_compute; reflexivity|];
            repeat split; vm_compute; reflexivity).
  (* a file is missing *)
  all: intros Hmiss;
       try (destruct Hmiss as [Hmiss|Hmiss]); file_form t Hmiss; revert Hmiss;
       repeat match goal with
              | |- context [isfile ?p] => destruct (isfile p) eqn:?
              end;
       intros Hmiss; try discriminate Hmiss; vm_compute; reflexivity.
Qed.

(** C6: for every choice of the output grid and of [use_fieldwarp] the
    connections of the constructed graph contain no cycle. *)
Theorem mni_graph_acyclic (a : args) (t : string) :
  valid_name (name a) = true ->
  TEMPLATE_MAP !! template a = Some t ->
  files_ok a t = true ->
  exists s, init_mni a = Ok s /\ acyclic s.
Proof.
  intros Hv Ht Hf. mni_cases a Hv Ht Hf; eexists.
  all: split; [vm_compute; reflexivity|].
  all: apply (ranked_acyclic _ mni_rank); vm_compute; reflexivity.
Qed.

End MniProperties.
(** ** Calls in a store that already holds objects *)

Lemma lookup_lift (h : list engine_obj) (s : state) (l : loc) :
  heap (lift h s) !! (length h + l) = heap s !! l.
Proof.
  cbn. rewrite lookup_app_r by lia. f_equal. lia.
Qed.

Lemma graph_objects_lift (h : list engine_obj) (s : state) :
  graph_objects (lift h s) = graph_objects s.
Proof.
  unfold graph_objects.
  change (wf_nodes (workflow (lift h s)))
    with ((fun l => length h + l) <$> wf_nodes (workflow s)).
  induction (wf_nodes (workflow s)) as [|l ls IH]; [reflexivity|].
  cbn [fmap list_fmap omap list_omap].
  rewrite lookup_lift.
  destruct (heap s !! l); [f_equal|]; exact IH.
Qed.

Lemma wire_of_lift (h : list engine_obj) (s : state) (c : Conn) :
  wire_of (lift h s) (shift_conn (length h) c) = wire_of s c.
Proof.
  unfold wire_of, name_at. cbn [src dst shift_conn src_field src_fn dst_field].
  rewrite !lookup_lift. reflexivity.
Qed.

Lemma wires_lift (h : list engine_obj) (s : state) : wires (lift h s) = wires s.
Proof.
  unfold wires.
  change (wf_conns (workflow (lift h s)))
    with (shift_conn (length h) <$> wf_conns (workflow s)).
  rewrite <- list_fmap_compose.
  apply list_fmap_ext. intros i c _. apply wire_of_lift.
Qed.

Lemma same_graph_lift (h1 h2 : list engine_obj) (s : state) :
  same_graph (lift h1 s) (lift h2 s).
Proof.
  unfold same_graph. rewrite !graph_objects_lift, !wires_lift. done.
Qed.

Lemma add_node_shift (n : nat) (l : loc) (ns : list loc) :
  add_node (n + l) ((fun x => n + x) <$> ns) = (fun x => n + x) <$> add_node l ns.
Proof.
  unfold add_node.
  assert (Hiff : n + l ∈ (fun x => n + x) <$> ns <-> l ∈ ns).
  { rewrite list_elem_of_fmap. split.
    - intros (y & Hy & Hin). by replace l with y by lia.
    - intros Hin. by exists l. }
  rewrite (bool_decide_ext _ _ Hiff).
  destruct (bool_decide (l ∈ ns)); [reflexivity|].
  by rewrite fmap_app.
Qed.

Lemma connect_group_shift (n : nat) (w : Workflow)
    (c : loc * loc * list (src_port * string)) :
  connect_group (shift_wf n w) (shift_group n c) = shift_wf n (connect_group w c).
Proof.
  destruct c as [[u v] ports]. unfold connect_group, shift_wf, shift_group.
  cbn [wf_name wf_desc wf_nodes wf_conns].
  f_equal.
  - by rewrite !add_node_shift.
  - rewrite fmap_app. f_equal. rewrite <- list_fmap_compose. reflexivity.
Qed.

Lemma foldl_connect_group_shift (n : nat)
    (cs : list (loc * loc * list (src_port * string))) (w : Workflow) :
  foldl connect_group (shift_wf n w) (shift_group n <$> cs)
  = shift_wf n (foldl connect_group w cs).
Proof.
  revert w. induction cs as [|c cs IH]; intros w; [reflexivity|].
  cbn [fmap list_fmap foldl]. rewrite connect_group_shift. apply IH.
Qed.

Lemma reloc_bind {A B} (n : nat) (shA : nat -> A -> A) (shB : nat -> B -> B)
    (m m' : build A) (k k' : A -> build B) :
  relocates n shA m m' ->
  (forall a, relocates n shB (k a) (k' (shA n a))) ->
  relocates n shB (bind m k) (bind m' k').
Proof.
  intros Hm Hk g s h Hh. unfold bind. rewrite (Hm g s h Hh).
  destruct (m g s) as [[a s1]|e]; cbn; [by apply Hk|reflexivity].
Qed.

Lemma reloc_ret {A} (n : nat) (a : A) : relocates n (fun _ x => x) (ret a) (ret a).
Proof. by intros g s h _. Qed.

Lemma reloc_raise {A} (n : nat) (sh : nat -> A -> A) (e : exn) :
  relocates n sh (raise e) (raise e).
Proof. by intros g s h _. Qed.

Lemma reloc_use (n : nat) (x : string) : relocates n (fun _ u => u) (use x) (use x).
Proof. intros g s h _. unfold use. by destruct (bool_decide (x ∈ g)). Qed.

Lemma reloc_subscript (n : nat) (d : gmap string string) (k : string) :
  relocates n (fun _ v => v) (subscript d k) (subscript d k).
Proof. intros g s h _. unfold subscript. by destruct (d !! k). Qed.

Lemma reloc_Workflow_new (n : nat) (name : string) :
  relocates n (fun _ u => u) (Workflow_new name) (Workflow_new name).
Proof.
  intros g s h _. unfold Workflow_new, bind, use.
  destruct (bool_decide ("Workflow" ∈ g)); [|reflexivity].
  by destruct (valid_name name).
Qed.

Lemma reloc_set_desc (n : nat) (d : string) :
  relocates n (fun _ u => u) (set_desc d) (set_desc d).
Proof. by intros g s h _. Qed.

Lemma reloc_alloc (n : nat) (o : engine_obj) :
  relocates n (fun k l => k + l) (alloc o) (alloc o).
Proof.
  intros g s h <-. unfold alloc, lift_result, lift. cbn [heap workflow].
  by rewrite length_app, <- app_assoc.
Qed.

Lemma reloc_mem (n : nat) (m : build (option num)) :
  m = no_mem \/ (exists v, m = mem v) \/ m = mem_default_min ->
  relocates n (fun _ v => v) m m.
Proof.
  intros [->|[[v ->]| ->]]; intros g s h _; try reflexivity.
  unfold mem_default_min, bind, use.
  by destruct (bool_decide ("DEFAULT_MEMORY_MIN_GB" ∈ g)).
Qed.

Lemma reloc_pe_Node (n : nat) (i : Interface) (kw : list (string * pyval))
    (name : string) (m : build (option num)) (procs : option Z) (rws : bool) :
  relocates n (fun _ v => v) m m ->
  relocates n (fun k l => k + l) (pe_Node i kw name m procs rws)
    (pe_Node i kw name m procs rws).
Proof.
  intros Hm. unfold pe_Node.
  eapply reloc_bind; [apply reloc_use|intros _; cbv beta].
  eapply reloc_bind; [apply reloc_use|intros _; cbv beta].
  eapply reloc_bind; [exact Hm|intros v; cbv beta].
  destruct (valid_name name); [apply reloc_alloc|apply reloc_raise].
Qed.

Lemma reloc_call_init_bold_reference_wf (n : nat) (omp : Z) (pm : option bool) :
  relocates n (fun k l => k + l) (call_init_bold_reference_wf omp pm)
    (call_init_bold_reference_wf omp pm).
Proof.
  unfold call_init_bold_reference_wf.
  eapply reloc_bind; [apply reloc_use|intros _; apply reloc_alloc].
Qed.

Lemma reloc_set_input (n : nat) (l : loc) (k : string) (v : pyval) :
  relocates n (fun _ u => u) (set_input l k v) (set_input (n + l) k v).
Proof.
  intros g s h <-. unfold set_input, lift_result, lift. cbn [heap workflow].
  by rewrite alter_app_r.
Qed.

Lemma reloc_set_file_input (n : nat) (isfile : string -> bool) (l : loc)
    (k path : string) :
  relocates n (fun _ u => u) (set_file_input isfile l k path)
    (set_file_input isfile (n + l) k path).
Proof.
  intros g s h Hh. unfold set_file_input.
  destruct (isfile path); [by apply reloc_set_input|reflexivity].
Qed.

Lemma reloc_connect (n : nat) (cs cs' : list (loc * loc * list (src_port * string))) :
  cs' = shift_group n <$> cs ->
  relocates n (fun _ u => u) (connect cs) (connect cs').
Proof.
  intros -> g s h <-. unfold connect, lift_result, lift. cbn [heap workflow].
  by rewrite foldl_connect_group_shift.
Qed.

Ltac reloc_step :=
  first
    [ apply reloc_use | apply reloc_subscript | apply reloc_Workflow_new
    | apply reloc_set_desc | apply reloc_ret | apply reloc_set_file_input
    | apply reloc_call_init_bold_reference_wf
    | apply reloc_pe_Node; apply reloc_mem;
      first [ by left | by right; left; eexists | by right; right ]
    | apply reloc_connect; reflexivity
    | eapply reloc_bind; [reloc_step | intros ?; cbv beta; reloc_step]
    | match goal with |- relocates _ _ (if ?b then _ else _) _ => destruct b; reloc_step end ].

Lemma mni_body_relocates (TEMPLATE_MAP : gmap string string)
    (get_dataset : string -> string) (isfile : string -> bool)
    (n : nat) (a : MniTrans.args) :
  relocates n (fun _ u => u)
    (MniTrans.body TEMPLATE_MAP get_dataset isfile a)
    (MniTrans.body TEMPLATE_MAP get_dataset isfile a).
Proof.
  unfold MniTrans.body. reloc_step.
Qed.

Lemma lift_empty_state (h : list engine_obj) :
  {| heap := h; workflow := workflow empty_state |} = lift h empty_state.
Proof. unfold lift. cbn. by rewrite app_nil_r. Qed.

(** A call in a store that holds [h] does what the call in the empty store
    does, with the new objects placed after [h]. *)
Lemma mni_call_in_lift (TEMPLATE_MAP : gmap string string)
    (get_dataset : string -> string) (isfile : string -> bool)
    (h : list engine_obj) (a : MniTrans.args) :
  mni_call_in TEMPLATE_MAP get_dataset isfile h a =
  match MniTrans.init_bold_mni_trans_wf TEMPLATE_MAP get_dataset isfile a with
  | Ok s => Ok (lift h s)
  | Raise e => Raise e
  end.
Proof.
  unfold mni_call_in, run_from, MniTrans.init_bold_mni_trans_wf, run.
  rewrite lift_empty_state.
  rewrite (mni_body_relocates TEMPLATE_MAP get_dataset isfile (length h) a
             module_globals empty_state h eq_refl).
  by destruct (MniTrans.body TEMPLATE_MAP get_dataset isfile a module_globals
                 empty_state) as [[[] s]|e].
Qed.

(** The call reads [TEMPLATE_MAP] at the template only, [get_dataset] at the
    entry found there only, and the file system through [isfile] only. *)
Lemma mni_reads (TM1 TM2 : gmap string string) (gd1 gd2 : string -> string)
    (isf1 isf2 : string -> bool) (a : MniTrans.args) :
  TM1 !! MniTrans.template a = TM2 !! MniTrans.template a ->
  (forall t, TM1 !! MniTrans.template a = Some t -> gd1 t = gd2 t) ->
  (forall p, isf1 p = isf2 p) ->
  MniTrans.init_bold_mni_trans_wf TM1 gd1 isf1 a =
  MniTrans.init_bold_mni_trans_wf TM2 gd2 isf2 a.
Proof.
  intros HT Hgd Hisf. destruct a as [tpl mem omp nm tog uc ufw].
  cbn [MniTrans.template] in *.
  unfold MniTrans.init_bold_mni_trans_wf, MniTrans.body, subscript, Workflow_new.
  cbn [MniTrans.template MniTrans.mem_gb MniTrans.omp_nthreads MniTrans.name
       MniTrans.template_out_grid MniTrans.use_compression MniTrans.use_fieldwarp].
  rewrite <- HT.
  destruct (valid_name nm); [|vm_compute; reflexivity].
  destruct (TM1 !! tpl) as [t|]; [|vm_compute; reflexivity].
  specialize (Hgd t eq_refl).
  rewrite !run_exec.
  repeat exec_step.
  unfold set_file_input.
  rewrite Hgd, ?Hisf.
  reflexivity.
Qed.

(** C10: two calls with equal arguments have the same outcome, whatever
    objects earlier calls have left in the store and whatever the rest of
    the environment is, as long as the two calls read the same things: the
    same entry of [TEMPLATE_MAP] for the template, the same dataset
    directory for that entry and the same answers from the file system.
    Both raise the same exception, or both return a graph with the same
    nodes carrying the same settings, the same connections, the same name
    and the same description. *)
Theorem construction_deterministic
    (TM1 TM2 : gmap string string) (gd1 gd2 : string -> string)
    (isf1 isf2 : string -> bool) (h1 h2 : list engine_obj)
    (a1 a2 : MniTrans.args) :
  a1 = a2 ->
  TM1 !! MniTrans.template a1 = TM2 !! MniTrans.template a2 ->
  (forall t, TM1 !! MniTrans.template a1 = Some t -> gd1 t = gd2 t) ->
  (forall p, isf1 p = isf2 p) ->
  same_outcome (mni_call_in TM1 gd1 isf1 h1 a1) (mni_call_in TM2 gd2 isf2 h2 a2).
Proof.
  intros <- HT Hgd Hisf.
  rewrite !mni_call_in_lift, (mni_reads TM1 TM2 gd1 gd2 isf1 isf2 a1 HT Hgd Hisf).
  destruct (MniTrans.init_bold_mni_trans_wf TM2 gd2 isf2 a1) as [s|e]; cbn.
  - apply same_graph_lift.
  - reflexivity.
Qed.

(** ** The theorems at sample calls *)

(** The slot layout of [merge_xforms] on a call with the field warp. *)
Lemma merge_xforms_slots_witness :
  valid_name (MniTrans.name sample_mni_args_warp) = true /\
  sample_TEMPLATE_MAP !! MniTrans.template sample_mni_args_warp = Some "mni_icbm152_nlin_asym_09c" /\
  MniTrans.files_present sample_get_dataset sample_isfile sample_mni_args_warp "mni_icbm152_nlin_asym_09c" = true /\
  (exists s l n g,
    MniTrans.init_bold_mni_trans_wf sample_TEMPLATE_MAP sample_get_dataset
      sample_isfile sample_mni_args_warp = Ok s /\
    find_node s "merge_xforms" = Some (l, n) /\
    filter (fun m => node_name m = "merge_xforms") (graph_nodes s) = [n] /\
    interface n = NiuMerge (if MniTrans.use_fieldwarp sample_mni_args_warp then 4 else 3) /\
    input_slots (interface n) =
      (if MniTrans.use_fieldwarp sample_mni_args_warp then ["in1"; "in2"; "in3"; "in4"] else ["in1"; "in2"; "in3"]) /\
    last (input_slots (interface n)) = Some g /\
    g = (if MniTrans.use_fieldwarp sample_mni_args_warp then "in4" else "in3") /\
    between s "inputnode" "hmc_xforms" "merge_xforms" =
      [wire "inputnode" "hmc_xforms" None "merge_xforms" g] /\
    (wire "inputnode" "fieldwarp" None "merge_xforms" "in3" ∈ wires s
     <-> MniTrans.use_fieldwarp sample_mni_args_warp = true) /\
    between s "inputnode" "fieldwarp" "merge_xforms" =
      (if MniTrans.use_fieldwarp sample_mni_args_warp
       then [wire "inputnode" "fieldwarp" None "merge_xforms" "in3"] else [])).
Proof.
  split; [vm_compute; reflexivity|].
  split; [vm_compute; reflexivity|].
  split; [vm_compute; reflexivity|].
  apply (merge_xforms_slots sample_TEMPLATE_MAP sample_get_dataset sample_isfile sample_mni_args_warp
           "mni_icbm152_nlin_asym_09c");
    vm_compute; reflexivity.
Defined.

(** The order of the composite transform on a call with the field warp, with
    the values in the slots written out. *)
Lemma composite_transform_order_witness :
  exists s l n,
    MniTrans.init_bold_mni_trans_wf sample_TEMPLATE_MAP sample_get_dataset sample_isfile
      sample_mni_args_warp = Ok s /\
    find_node s "merge_xforms" = Some (l, n) /\
    input_slots (interface n) = ["in1"; "in2"; "in3"; "in4"] /\
    carried sample_rho <$> concat (feeds s "merge_xforms" <$> input_slots (interface n)) =
      [Ok (VStr "t1_2_mni_forward_transform.txt");
       Ok (VList [VStr "itk_bold_to_t1.txt"]);
       Ok (VStr "fieldwarp.txt");
       Ok (VStr "hmc_xforms.txt")] /\
    feeds s "bold_to_mni_transform" "transforms" =
      [wire "merge_xforms" "out" None "bold_to_mni_transform" "transforms"].
Proof.
  destruct (composite_transform_order sample_TEMPLATE_MAP sample_get_dataset
              sample_isfile sample_mni_args_warp "mni_icbm152_nlin_asym_09c" sample_rho)
    as (s & l & n & Hs & Hn & Hf & Hc & Hl & Hb);
    [vm_compute; reflexivity ..|].
  exists s, l, n.
  split; [exact Hs|]. split; [exact Hn|].
  split; [|split; [exact Hc | exact Hb]].
  vm_compute in Hs. injection Hs as <-.
  vm_compute in Hn. injection Hn as _ <-.
  reflexivity.
Defined.

(** The output-grid choice on the docstring call (native grid), on the 2 mm
    grid, on a custom grid whose file exists and on one whose file does
    not, with the paths written out. *)
Lemma output_grid_dispatch_witness :
  (exists s,
     MniTrans.init_bold_mni_trans_wf sample_TEMPLATE_MAP sample_get_dataset sample_isfile
       sample_mni_args = Ok s /\
     feeds s "mask_mni_tfm" "reference_image" =
       [wire "gen_ref" "out_file" None "mask_mni_tfm" "reference_image"] /\
     feeds s "bold_to_mni_transform" "reference_image" =
       [wire "gen_ref" "out_file" None "bold_to_mni_transform" "reference_image"] /\
     static_input s "mask_mni_tfm" "reference_image" = None /\
     static_input s "bold_to_mni_transform" "reference_image" = None) /\
  (exists s,
     MniTrans.init_bold_mni_trans_wf sample_TEMPLATE_MAP sample_get_dataset sample_isfile
       sample_mni_args_2mm = Ok s /\
     static_input s "mask_mni_tfm" "reference_image" =
       Some (VStr "/templates/mni_icbm152_nlin_asym_09c/2mm_brainmask.nii.gz") /\
     static_input s "bold_to_mni_transform" "reference_image" =
       Some (VStr "/templates/mni_icbm152_nlin_asym_09c/2mm_T1.nii.gz") /\
     feeds s "mask_mni_tfm" "reference_image" = [] /\
     feeds s "bold_to_mni_transform" "reference_image" = []) /\
  (exists s,
     MniTrans.init_bold_mni_trans_wf sample_TEMPLATE_MAP sample_get_dataset sample_isfile
       sample_mni_args_custom = Ok s /\
     static_input s "mask_mni_tfm" "reference_image" =
       Some (VStr "/data/ref/custom_grid.nii.gz") /\
     static_input s "bold_to_mni_transform" "reference_image" =
       Some (VStr "/data/ref/custom_grid.nii.gz") /\
     feeds s "mask_mni_tfm" "reference_image" = [] /\
     feeds s "bold_to_mni_transform" "reference_image" = []) /\
  MniTrans.init_bold_mni_trans_wf sample_TEMPLATE_MAP sample_get_dataset sample_isfile
    sample_mni_args_missing = Raise TraitError.
Proof.
  split; [|split; [|split]].
  - destruct (output_grid_dispatch sample_TEMPLATE_MAP sample_get_dataset sample_isfile
                sample_mni_args "mni_icbm152_nlin_asym_09c") as (Hnative & _ & _);
      [vm_compute; reflexivity ..|].
    apply Hnative. reflexivity.
  - destruct (output_grid_dispatch sample_TEMPLATE_MAP sample_get_dataset sample_isfile
                sample_mni_args_2mm "mni_icbm152_nlin_asym_09c") as (_ & Hgrid & _);
      [vm_compute; reflexivity ..|].
    destruct Hgrid as [Hpresent _]; [right; reflexivity|].
    apply Hpresent; vm_compute; reflexivity.
  - destruct (output_grid_dispatch sample_TEMPLATE_MAP sample_get_dataset sample_isfile
                sample_mni_args_custom "mni_icbm152_nlin_asym_09c") as (_ & _ & Hcustom);
      [vm_compute; reflexivity ..|].
    destruct Hcustom as [Hpresent _]; [vm_compute; discriminate ..|].
    apply Hpresent; vm_compute; reflexivity.
  - destruct (output_grid_dispatch sample_TEMPLATE_MAP sample_get_dataset sample_isfile
                sample_mni_args_missing "mni_icbm152_nlin_asym_09c") as (_ & _ & Hcustom);
      [vm_compute; reflexivity ..|].
    destruct Hcustom as [_ Hmissing]; [vm_compute; discriminate ..|].
    apply Hmissing; vm_compute; reflexivity.
Defined.

(** C4 as first written does not hold: the custom grid
    ['/nonexistent/ref.nii.gz'] is a string other than ['native'], ['1mm']
    and ['2mm'], yet it is not used as reference image of either node: no
    file of that name exists, the assignment raises [TraitError] and the
    call returns no workflow. *)
Lemma output_grid_custom_path_not_verbatim :
  valid_name (MniTrans.name sample_mni_args_missing) = true /\
  sample_TEMPLATE_MAP !! MniTrans.template sample_mni_args_missing = Some "mni_icbm152_nlin_asym_09c" /\
  sample_isfile "/templates/mni_icbm152_nlin_asym_09c/1mm_T1.nii.gz" = true /\
  MniTrans.template_out_grid sample_mni_args_missing = "/nonexistent/ref.nii.gz" /\
  sample_isfile "/nonexistent/ref.nii.gz" = false /\
  MniTrans.init_bold_mni_trans_wf sample_TEMPLATE_MAP sample_get_dataset sample_isfile
    sample_mni_args_missing = Raise TraitError /\
  ~ (exists s,
       MniTrans.init_bold_mni_trans_wf sample_TEMPLATE_MAP sample_get_dataset sample_isfile
         sample_mni_args_missing = Ok s /\
       static_input s "mask_mni_tfm" "reference_image" =
         Some (VStr "/nonexistent/ref.nii.gz") /\
       static_input s "bold_to_mni_transform" "reference_image" =
         Some (VStr "/nonexistent/ref.nii.gz")).
Proof.
  assert (E : MniTrans.init_bold_mni_trans_wf sample_TEMPLATE_MAP sample_get_dataset sample_isfile
                sample_mni_args_missing = Raise TraitError)
    by (vm_compute; reflexivity).
  repeat (split; [vm_compute; reflexivity|]).
  intros (s & Hs & _). rewrite E in Hs. discriminate Hs.
Qed.

(** Acyclicity of the graph built on a custom grid. *)
Lemma mni_graph_acyclic_witness :
  valid_name (MniTrans.name sample_mni_args_custom) = true /\
  sample_TEMPLATE_MAP !! MniTrans.template sample_mni_args_custom = Some "mni_icbm152_nlin_asym_09c" /\
  MniTrans.files_present sample_get_dataset sample_isfile sample_mni_args_custom "mni_icbm152_nlin_asym_09c" = true /\
  (exists s, MniTrans.init_bold_mni_trans_wf sample_TEMPLATE_MAP sample_get_dataset
      sample_isfile sample_mni_args_custom = Ok s /\ acyclic s).
Proof.
  split; [vm_compute; reflexivity|].
  split; [vm_compute; reflexivity|].
  split; [vm_compute; reflexivity|].
  apply (mni_graph_acyclic sample_TEMPLATE_MAP sample_get_dataset sample_isfile sample_mni_args_custom
           "mni_icbm152_nlin_asym_09c");
    vm_compute; reflexivity.
Defined.

(** The docstring call made in the empty store, and made again in the store
    the first call has left, with a larger template table and another
    dataset root for the other templates: the same graph. *)
Lemma construction_deterministic_witness :
  sample_store <> [] /\
  sample_TEMPLATE_MAP <> sample_TEMPLATE_MAP_2 /\
  sample_get_dataset "oasis" <> sample_get_dataset_2 "oasis" /\
  same_outcome
    (mni_call_in sample_TEMPLATE_MAP sample_get_dataset sample_isfile []
       sample_mni_args)
    (mni_call_in sample_TEMPLATE_MAP_2 sample_get_dataset_2 sample_isfile sample_store
       sample_mni_args).
Proof.
  split; [vm_compute; discriminate|].
  split; [intros H; apply (f_equal (fun m => m !! "OASIS")) in H; vm_compute in H;
          discriminate H|].
  split; [vm_compute; discriminate|].
  apply construction_deterministic.
  - reflexivity.
  - vm_compute; reflexivity.
  - intros t Ht. vm_compute in Ht. injection Ht as <-. vm_compute; reflexivity.
  - reflexivity.
Defined.

(** ** [init_dwi_preproc_trans_wf] *)

Section PreprocProperties.

Import PreprocTrans.

(** Neither [afni] nor [NiftiInfo] is bound by the module. *)
Lemma afni_not_bound : ("afni" ∉ module_globals) /\ ("NiftiInfo" ∉ module_globals).
Proof.
  split; intros H; apply (bool_decide_pack _) in H; vm_compute in H; destruct H.
Qed.

(** An ASCII name that the engine rejects makes the first statement raise. *)
Lemma dwi_invalid_name (a : args) :
  ascii_only (name a) = true ->
  valid_name (name a) = false ->
  init_dwi_preproc_trans_wf a = Raise ValueError.
Proof.
  intros _ Hv. destruct a as [mem omp nm uc ufw sf interp]; cbn [name] in Hv.
  unfold init_dwi_preproc_trans_wf, body, Workflow_new.
  cbn [mem_gb omp_nthreads name use_compression use_fieldwarp split_file
       interpolation].
  rewrite Hv. vm_compute. reflexivity.
Qed.

(** C1: the call does not return a workflow.  Whatever the arguments, once
    the engine has accepted the name of the workflow, the reference to
    [afni] in the first node of the body raises [NameError]. *)
Theorem dwi_init_raises_name_error (a : args) :
  valid_name (name a) = true ->
  init_dwi_preproc_trans_wf a = Raise (NameError "afni").
Proof.
  intros Hv. destruct a as [mem omp nm uc ufw sf interp]; cbn [name] in Hv.
  unfold init_dwi_preproc_trans_wf, body, Workflow_new.
  cbn [mem_gb omp_nthreads name use_compression use_fieldwarp split_file
       interpolation].
  rewrite Hv. vm_compute. reflexivity.
Qed.

(** The theorem at the docstring call. *)
Lemma dwi_init_raises_name_error_witness :
  valid_name (name sample_dwi_args) = true /\
  init_dwi_preproc_trans_wf sample_dwi_args = Raise (NameError "afni").
Proof.
  split; [vm_compute; reflexivity|].
  apply (dwi_init_raises_name_error sample_dwi_args).
  vm_compute; reflexivity.
Defined.

(** C5: with [split_file=True] the call raises before any node is
    connected, so no graph with a [bold_split] node is returned. *)
Theorem dwi_split_file_no_graph :
  init_dwi_preproc_trans_wf (with_split_file true (with_defaults (NumInt 3) 1))
    = Raise (NameError "afni") /\
  ~ (exists s,
       init_dwi_preproc_trans_wf (with_split_file true (with_defaults (NumInt 3) 1)) = Ok s /\
       is_Some (find_node s "bold_split")).
Proof.
  assert (E : init_dwi_preproc_trans_wf (with_split_file true (with_defaults (NumInt 3) 1)) = Raise (NameError "afni"))
    by (vm_compute; reflexivity).
  split; [exact E|]. intros (s & Hs & _). rewrite E in Hs. discriminate Hs.
Qed.

(** C9: with [use_fieldwarp=False] the call raises before the nested
    [_aslist] is defined, so no returned graph carries [hmc_xforms] to
    [bold_transform]. *)
Theorem dwi_hmc_xforms_no_graph :
  init_dwi_preproc_trans_wf (with_defaults (NumInt 3) 1) = Raise (NameError "afni") /\
  ~ (exists s,
       init_dwi_preproc_trans_wf (with_defaults (NumInt 3) 1) = Ok s /\
       wire "inputnode" "hmc_xforms" (Some fn_aslist_dwi) "bold_transform" "transforms"
         ∈ wires s).
Proof.
  assert (E : init_dwi_preproc_trans_wf (with_defaults (NumInt 3) 1) = Raise (NameError "afni"))
    by (vm_compute; reflexivity).
  split; [exact E|]. intros (s & Hs & _). rewrite E in Hs. discriminate Hs.
Qed.

(** *** The body once the two names resolve

    The rest of the body is well formed: run in a namespace that also binds
    [afni] and [NiftiInfo], and with a name the engine accepts, it builds
    the graph described below. *)

Ltac dwi_cases a Hv :=
  destruct a as [mem omp nm uc ufw sf interp];
  cbn [mem_gb omp_nthreads name use_compression use_fieldwarp split_file
       interpolation] in *;
  unfold body, Workflow_new;
  cbn [mem_gb omp_nthreads name use_compression use_fieldwarp split_file
       interpolation];
  rewrite Hv;
  destruct ufw, sf.

Lemma dwi_body_returns (a : args) :
  valid_name (name a) = true ->
  exists s, run repaired_globals (body a) = Ok s.
Proof. intros Hv. dwi_cases a Hv; eexists; vm_compute; reflexivity. Qed.

(** The splitting node is present exactly with [split_file]; it is an
    [FSLSplit] along ['t'] fed by [bold_file], and it (or else [bold_file]
    itself) provides the images and, through [_first], the reference. *)
Lemma dwi_body_split_wiring (a : args) :
  valid_name (name a) = true ->
  exists s,
    run repaired_globals (body a) = Ok s /\
    (is_Some (find_node s "bold_split") <-> split_file a = true) /\
    (interface <$> (snd <$> find_node s "bold_split")) =
      (if split_file a then Some FSLSplit else None) /\
    static_input s "bold_split" "dimension" =
      (if split_file a then Some (VStr "t") else None) /\
    feeds s "bold_split" "in_file" =
      (if split_file a then [wire "inputnode" "bold_file" None "bold_split" "in_file"]
       else []) /\
    feeds s "bold_transform" "input_image" =
      (if split_file a
       then [wire "bold_split" "out_files" None "bold_transform" "input_image"]
       else [wire "inputnode" "bold_file" None "bold_transform" "input_image"]) /\
    feeds s "bold_transform" "reference_image" =
      (if split_file a
       then [wire "bold_split" "out_files" (Some fn_first) "bold_transform"
                  "reference_image"]
       else [wire "inputnode" "bold_file" (Some fn_first) "bold_transform"
                  "reference_image"]).
Proof.
  intros Hv. dwi_cases a Hv; eexists.
  all: split; [vm_compute; reflexivity|].
  all: split; [|repeat split; vm_compute; reflexivity].
  all: split; first [ intros _; reflexivity | discriminate
                    | intros _; vm_compute; eexists; reflexivity
                    | let H := fresh in intros H; vm_compute in H; by destruct H ].
Qed.

(** Without the field warp, [hmc_xforms] goes to [transforms] through the
    nested [_aslist]: a list arrives wrapped in one more list. *)
Lemma dwi_body_hmc_nesting (a : args) (rho : string -> pyval) :
  valid_name (name a) = true ->
  use_fieldwarp a = false ->
  exists s,
    run repaired_globals (body a) = Ok s /\
    feeds s "bold_transform" "transforms" =
      [wire "inputnode" "hmc_xforms" (Some fn_aslist_dwi) "bold_transform" "transforms"] /\
    carried rho <$> feeds s "bold_transform" "transforms" =
      [Ok (VList [rho "hmc_xforms"])].
Proof.
  intros Hv Hf. dwi_cases a Hv; try discriminate Hf; eexists.
  all: split; [vm_compute; reflexivity|].
  all: split; vm_compute; reflexivity.
Qed.

(** With the field warp, [merge_xforms] collects [fieldwarp] then
    [hmc_xforms]. *)
Lemma dwi_body_fieldwarp_merge (a : args) :
  valid_name (name a) = true ->
  use_fieldwarp a = true ->
  exists s,
    run repaired_globals (body a) = Ok s /\
    feeds s "merge_xforms" <$> ["in1"; "in2"] =
      [[wire "inputnode" "fieldwarp" None "merge_xforms" "in1"];
       [wire "inputnode" "hmc_xforms" None "merge_xforms" "in2"]] /\
    feeds s "bold_transform" "transforms" =
      [wire "merge_xforms" "out" None "bold_transform" "transforms"].
Proof.
  intros Hv Hf. dwi_cases a Hv; try discriminate Hf; eexists.
  all: split; [vm_compute; reflexivity|].
  all: split; vm_compute; reflexivity.
Qed.

(** The nested [_aslist] of this function wraps every value, lists
    included. *)
Lemma aslist_dwi_wraps (v : pyval) : PreprocTrans._aslist v = VList [v].
Proof. reflexivity. Qed.

Lemma depth_wrap (v : pyval) : depth (VList [v]) = S (depth v).
Proof. cbn. lia. Qed.

Lemma wrap_neq (v : pyval) : VList [v] <> v.
Proof. intros H. apply (f_equal depth) in H. rewrite depth_wrap in H. lia. Qed.

(** It is not the identity on lists, not idempotent, and differs on every
    list from the helper of [init_bold_mni_trans_wf]. *)
Lemma aslist_dwi_not_idempotent (v : pyval) :
  PreprocTrans._aslist (VList [v]) <> VList [v] /\
  PreprocTrans._aslist (PreprocTrans._aslist v) <> PreprocTrans._aslist v /\
  (forall l, PreprocTrans._aslist (VList l) <> MniTrans._aslist (VList l)).
Proof.
  split; [|split].
  - apply wrap_neq.
  - apply wrap_neq.
  - intros l. apply (wrap_neq (VList l)).
Qed.

End PreprocProperties.

(** * Further properties of the constructed graphs *)

(** ** Reachability *)

Lemma reach_sound (s : state) (n : nat) (u v : loc) :
  v ∈ reach s n u -> rtc (edge s) u v.
Proof.
  revert u. induction n as [|n IH]; intros u Hv; cbn in Hv.
  - apply list_elem_of_singleton in Hv as ->. done.
  - apply elem_of_cons in Hv as [->|Hv]; [done|].
    apply list_elem_of_bind in Hv as (w & Hv & Hw).
    apply rtc_l with w; [|by apply IH].
    unfold succs in Hw. apply list_elem_of_fmap in Hw as (c & -> & Hc).
    apply list_elem_of_filter in Hc as [Hsrc Hc].
    exists c. done.
Qed.

Lemma closed_under_rtc (s : state) (S : list loc) (u v : loc) :
  closed_under s S = true -> u ∈ S -> rtc (edge s) u v -> v ∈ S.
Proof.
  intros Hcl Hu Huv. induction Huv as [|u w v (c & Hc & <- & <-) _ IH]; [done|].
  apply IH. unfold closed_under in Hcl. rewrite List.forallb_forall in Hcl.
  specialize (Hcl c (proj1 (list_elem_of_In _ _) Hc)).
  rewrite (bool_decide_eq_true_2 _ Hu) in Hcl. cbn in Hcl.
  by apply (bool_decide_eq_true_1 _) in Hcl.
Qed.

(** ** The list-shaping helpers together *)

(** X1: both [_aslist] helpers always produce a list, and [_first] undoes the
    wrapping: it returns the value itself after the helper of
    [init_dwi_preproc_trans_wf], and after the helper of
    [init_bold_mni_trans_wf] it returns the value itself for a non-list, the
    head of a non-empty list, and fails only on the empty list. *)
Theorem first_after_aslist (v : pyval) :
  isinstance_list (MniTrans._aslist v) = true /\
  isinstance_list (PreprocTrans._aslist v) = true /\
  _first (PreprocTrans._aslist v) = Ok v /\
  _first (MniTrans._aslist v) =
    (if isinstance_list v then _first v else Ok v) /\
  (raises (_first (MniTrans._aslist v)) = true <-> v = VList []).
Proof.
  destruct v as [| | | |l|l]; repeat split; try reflexivity; try discriminate.
  - destruct l; [reflexivity | discriminate].
  - intros [= ->]. reflexivity.
Qed.

(** ** The graph of [init_bold_mni_trans_wf] *)

Section MniGraph.

Import MniTrans.

Variable TEMPLATE_MAP : gmap string string.
Variable get_dataset : string -> string.
Variable isfile : string -> bool.

Local Abbreviation init_mni :=
  (init_bold_mni_trans_wf TEMPLATE_MAP get_dataset isfile).
Local Abbreviation files_ok := (files_present get_dataset isfile).

Ltac mni_cases a Hv Ht Hf := mni_cases_in isfile a Hv Ht Hf.

(** X2: what a call does, by the checks it meets in order.  A name the
    engine rejects raises [ValueError] at the first statement; then a
    template that is no key of [TEMPLATE_MAP] raises [KeyError] carrying the
    template; then a path assigned to a [File(exists=True)] input that is
    not an existing file raises [TraitError]; otherwise the call returns a
    workflow.  It returns in no other case. *)
Theorem mni_call_outcome (a : args) :
  (ascii_only (name a) = true -> valid_name (name a) = false ->
     init_mni a = Raise ValueError) /\
  (valid_name (name a) = true -> TEMPLATE_MAP !! template a = None ->
     init_mni a = Raise (KeyError (template a))) /\
  (forall t, valid_name (name a) = true -> TEMPLATE_MAP !! template a = Some t ->
     files_ok a t = false -> init_mni a = Raise TraitError) /\
  (forall t, valid_name (name a) = true -> TEMPLATE_MAP !! template a = Some t ->
     files_ok a t = true -> exists s, init_mni a = Ok s) /\
  (ascii_only (name a) = true -> (exists s, init_mni a = Ok s) ->
     valid_name (name a) = true /\
     exists t, TEMPLATE_MAP !! template a = Some t /\ files_ok a t = true).
Proof.
  split; [apply mni_invalid_name|].
  split; [apply mni_unknown_template|].
  split; [intros t; apply mni_missing_file|].
  split; [intros t; apply mni_returns|].
  intros Hascii [s Hs].
  destruct (valid_name (name a)) eqn:Hv;
    [|rewrite (mni_invalid_name _ _ _ a Hascii Hv) in Hs; discriminate Hs].
  split; [reflexivity|].
  destruct (TEMPLATE_MAP !! template a) as [t|] eqn:Ht;
    [|rewrite (mni_unknown_template _ _ _ a Hv Ht) in Hs; discriminate Hs].
  exists t. split; [reflexivity|].
  destruct (files_ok a t) eqn:Hf; [reflexivity|].
  rewrite (mni_missing_file _ _ _ a t Hv Ht Hf) in Hs. discriminate Hs.
Qed.

(** X3: the mask is resampled through its own merge node, which always has
    two slots (forward transform, then [itk_bold_to_t1] through [_aslist]);
    neither [hmc_xforms] nor [fieldwarp] enters it, with or without
    [use_fieldwarp].  [mask_mni_tfm] takes [bold_mask] and that merged list,
    interpolates with [MultiLabel], and its image goes to the output and to
    the nested reference workflow. *)
Theorem mask_transform_path (a : args) (t : string) :
  valid_name (name a) = true ->
  TEMPLATE_MAP !! template a = Some t ->
  files_ok a t = true ->
  exists s l n,
    init_mni a = Ok s /\
    find_node s "mask_merge_tfms" = Some (l, n) /\
    interface n = NiuMerge 2 /\
    feeds s "mask_merge_tfms" <$> input_slots (interface n) =
      [[wire "inputnode" "t1_2_mni_forward_transform" None "mask_merge_tfms" "in1"];
       [wire "inputnode" "itk_bold_to_t1" (Some fn_aslist_mni) "mask_merge_tfms" "in2"]] /\
    entering s "mask_merge_tfms" =
      [wire "inputnode" "t1_2_mni_forward_transform" None "mask_merge_tfms" "in1";
       wire "inputnode" "itk_bold_to_t1" (Some fn_aslist_mni) "mask_merge_tfms" "in2"] /\
    leaving s "mask_merge_tfms" =
      [wire "mask_merge_tfms" "out" None "mask_mni_tfm" "transforms"] /\
    entering s "mask_mni_tfm" =
      [wire "inputnode" "bold_mask" None "mask_mni_tfm" "input_image";
       wire "mask_merge_tfms" "out" None "mask_mni_tfm" "transforms"] ++
      (if String.eqb (template_out_grid a) "native"
       then [wire "gen_ref" "out_file" None "mask_mni_tfm" "reference_image"]
       else []) /\
    static_input s "mask_mni_tfm" "interpolation" = Some (VStr "MultiLabel") /\
    leaving s "mask_mni_tfm" =
      [wire "mask_mni_tfm" "output_image" None "outputnode" "bold_mask_mni";
       {| from_node := Some "mask_mni_tfm"; from_field := "output_image"; via := None;
          to_node := None; to_field := "inputnode.bold_mask" |}].
Proof.
  intros Hv Ht Hf. mni_cases a Hv Ht Hf; do 3 eexists.
  all: split; [vm_compute; reflexivity|].
  all: repeat split; vm_compute; reflexivity.
Qed.

(** X4: no input port is connected twice, and no port that holds a static
    value is also connected. *)
Theorem mni_inputs_fed_once (a : args) (t : string) :
  valid_name (name a) = true ->
  TEMPLATE_MAP !! template a = Some t ->
  files_ok a t = true ->
  exists s,
    init_mni a = Ok s /\
    NoDup (input_ports s) /\
    (forall p, p ∈ static_ports s -> p ∉ input_ports s).
Proof.
  intros Hv Ht Hf. mni_cases a Hv Ht Hf; eexists.
  all: split; [vm_compute; reflexivity|].
  all: split; [decide_vm | apply Forall_forall; decide_vm].
Qed.

(** X5: each of the three declared outputs has exactly one source:
    [bold_mni] from [merge], [bold_mni_ref] from the nested reference
    workflow, [bold_mask_mni] from [mask_mni_tfm].  Nothing leaves
    [outputnode] and nothing enters [inputnode]. *)
Theorem mni_outputs_fed_once (a : args) (t : string) :
  valid_name (name a) = true ->
  TEMPLATE_MAP !! template a = Some t ->
  files_ok a t = true ->
  exists s,
    init_mni a = Ok s /\
    declared_fields s "outputnode" = ["bold_mni"; "bold_mni_ref"; "bold_mask_mni"] /\
    feeds s "outputnode" <$> declared_fields s "outputnode" =
      [[wire "merge" "out_file" None "outputnode" "bold_mni"];
       [{| from_node := None; from_field := "outputnode.ref_image"; via := None;
           to_node := Some "outputnode"; to_field := "bold_mni_ref" |}];
       [wire "mask_mni_tfm" "output_image" None "outputnode" "bold_mask_mni"]] /\
    length (entering s "outputnode") = 3 /\
    leaving s "outputnode" = [] /\
    entering s "inputnode" = [].
Proof.
  intros Hv Ht Hf. mni_cases a Hv Ht Hf; eexists.
  all: split; [vm_compute; reflexivity|].
  all: repeat split; vm_compute; reflexivity.
Qed.

(** X6: every wire that leaves [inputnode] names one of its declared fields
    and every wire that enters [outputnode] names one of its declared fields.
    All declared inputs are used, except [fieldwarp], which is used only with
    [use_fieldwarp]. *)
Theorem mni_declared_fields_used (a : args) (t : string) :
  valid_name (name a) = true ->
  TEMPLATE_MAP !! template a = Some t ->
  files_ok a t = true ->
  exists s,
    init_mni a = Ok s /\
    (forall w, w ∈ leaving s "inputnode" ->
               from_field w ∈ declared_fields s "inputnode") /\
    (forall w, w ∈ entering s "outputnode" ->
               to_field w ∈ declared_fields s "outputnode") /\
    filter (fun f => f ∈ from_field <$> leaving s "inputnode")
           (declared_fields s "inputnode") =
      ["itk_bold_to_t1"; "t1_2_mni_forward_transform"; "name_source"; "bold_split";
       "bold_mask"; "hmc_xforms"] ++
      (if use_fieldwarp a then ["fieldwarp"] else []).
Proof.
  intros Hv Ht Hf. mni_cases a Hv Ht Hf; eexists.
  all: split; [vm_compute; reflexivity|].
  all: split; [apply Forall_forall; decide_vm|].
  all: split; [apply Forall_forall; decide_vm|].
  all: vm_compute; reflexivity.
Qed.

(** X7: [gen_ref] always takes the 1 mm T1 of the template as fixed image,
    whatever the output grid, and the first volume of [bold_split] as moving
    image.  Its output is used only with the ['native'] grid; otherwise the
    node stays in the graph with no outgoing connection. *)
Theorem gen_ref_usage (a : args) (t : string) :
  valid_name (name a) = true ->
  TEMPLATE_MAP !! template a = Some t ->
  files_ok a t = true ->
  exists s,
    init_mni a = Ok s /\
    static_input s "gen_ref" "fixed_image" =
      Some (VStr (op_join (get_dataset t) "1mm_T1.nii.gz")) /\
    entering s "gen_ref" =
      [wire "inputnode" "bold_split" (Some fn_first) "gen_ref" "moving_image"] /\
    leaving s "gen_ref" =
      (if String.eqb (template_out_grid a) "native"
       then [wire "gen_ref" "out_file" None "mask_mni_tfm" "reference_image";
             wire "gen_ref" "out_file" None "bold_to_mni_transform" "reference_image"]
       else []).
Proof.
  intros Hv Ht Hf. mni_cases a Hv Ht Hf; eexists.
  all: split; [vm_compute; reflexivity|].
  all: repeat split; vm_compute; reflexivity.
Qed.

(** The nodes, connections and wires are those of [mni_shape]. *)
Lemma mni_shape_of_run (a : args) (t : string) :
  valid_name (name a) = true ->
  TEMPLATE_MAP !! template a = Some t ->
  files_ok a t = true ->
  exists s,
    init_mni a = Ok s /\
    (wf_nodes (workflow s), wf_conns (workflow s), wires s) =
      mni_shape (use_fieldwarp a) (String.eqb (template_out_grid a) "native").
Proof.
  intros Hv Ht Hf. mni_cases a Hv Ht Hf; eexists.
  all: split; vm_compute; reflexivity.
Qed.

(** X8: the wiring depends on the arguments only through [use_fieldwarp]
    and through whether the output grid is ['native']: two calls that return
    and agree on these build the same nodes and the same connections,
    whatever their template, memory and thread hints, name, compression flag
    and (non-native) grid. *)
Theorem mni_wiring_depends_on_two_switches (a1 a2 : args) (t1 t2 : string) :
  valid_name (name a1) = true ->
  valid_name (name a2) = true ->
  TEMPLATE_MAP !! template a1 = Some t1 ->
  TEMPLATE_MAP !! template a2 = Some t2 ->
  files_ok a1 t1 = true ->
  files_ok a2 t2 = true ->
  use_fieldwarp a1 = use_fieldwarp a2 ->
  (template_out_grid a1 = "native" <-> template_out_grid a2 = "native") ->
  exists s1 s2,
    init_mni a1 = Ok s1 /\ init_mni a2 = Ok s2 /\
    wf_nodes (workflow s1) = wf_nodes (workflow s2) /\
    wf_conns (workflow s1) = wf_conns (workflow s2) /\
    wires s1 = wires s2.
Proof.
  intros Hv1 Hv2 H1 H2 Hf1 Hf2 Hf Hn.
  destruct (mni_shape_of_run a1 t1 Hv1 H1 Hf1) as (s1 & Hs1 & E1).
  destruct (mni_shape_of_run a2 t2 Hv2 H2 Hf2) as (s2 & Hs2 & E2).
  exists s1, s2. split; [done|]. split; [done|].
  assert (String.eqb (template_out_grid a1) "native" =
          String.eqb (template_out_grid a2) "native") as Hb.
  { destruct (String.eqb_spec (template_out_grid a1) "native") as [e|n],
             (String.eqb_spec (template_out_grid a2) "native") as [e'|n'];
      try reflexivity; [destruct n'; by apply Hn | destruct n; by apply Hn]. }
  rewrite Hf, Hb, <- E2 in E1. by injection E1 as -> -> ->.
Qed.

(** X9: every node of the graph is reached from [inputnode], and every
    node other than [gen_ref] reaches [outputnode]; [gen_ref] reaches it too
    with the ['native'] grid. *)
Theorem mni_graph_connected (a : args) (t : string) :
  valid_name (name a) = true ->
  TEMPLATE_MAP !! template a = Some t ->
  files_ok a t = true ->
  exists s li ni lo no,
    init_mni a = Ok s /\
    find_node s "inputnode" = Some (li, ni) /\
    find_node s "outputnode" = Some (lo, no) /\
    (forall l, l ∈ wf_nodes (workflow s) -> rtc (edge s) li l) /\
    (forall l, l ∈ wf_nodes (workflow s) ->
       name_at s l = Some "gen_ref" \/ rtc (edge s) l lo) /\
    (forall l, template_out_grid a = "native" ->
       l ∈ wf_nodes (workflow s) -> rtc (edge s) l lo).
Proof.
  intros Hv Ht Hf. mni_cases a Hv Ht Hf; do 5 eexists.
  all: split; [vm_compute; reflexivity|].
  all: split; [vm_compute; reflexivity|].
  all: split; [vm_compute; reflexivity|].
  all: split;
    [intros l Hl; apply (reach_sound _ 9); revert l Hl; apply Forall_forall; decide_vm|].
  all: split;
    [intros l Hl;
     match goal with
     | |- name_at ?s l = ?x \/ rtc (edge ?s) l ?lo =>
         assert (Hd : name_at s l = x \/ lo ∈ reach s 9 l);
         [ revert l Hl; apply Forall_forall; decide_vm
         | destruct Hd as [Hd|Hd]; [by left | right; by apply (reach_sound _ 9)] ]
     end|].
  all: intros l Hn; try congruence; try discriminate Hn.
  all: intros Hl; apply (reach_sound _ 9); revert l Hl; apply Forall_forall; decide_vm.
Qed.

(** X10: the mask path is not downstream of the BOLD transforms: no chain of
    connections leads from [merge_xforms] to [mask_mni_tfm] or to
    [mask_merge_tfms]. *)
Theorem mni_mask_not_downstream_of_xforms (a : args) (t : string) :
  valid_name (name a) = true ->
  TEMPLATE_MAP !! template a = Some t ->
  files_ok a t = true ->
  exists s lx nx lm nm lk nk,
    init_mni a = Ok s /\
    find_node s "merge_xforms" = Some (lx, nx) /\
    find_node s "mask_mni_tfm" = Some (lm, nm) /\
    find_node s "mask_merge_tfms" = Some (lk, nk) /\
    ~ rtc (edge s) lx lm /\
    ~ rtc (edge s) lx lk.
Proof.
  intros Hv Ht Hf. mni_cases a Hv Ht Hf; do 7 eexists.
  all: split; [vm_compute; reflexivity|].
  all: split; [vm_compute; reflexivity|].
  all: split; [vm_compute; reflexivity|].
  all: split; [vm_compute; reflexivity|].
  all: split; intros Hr.
  all: match type of Hr with
       | rtc (edge ?s) ?u _ =>
           apply (closed_under_rtc s (reach s 9 u)) in Hr;
           [| vm_compute; reflexivity | decide_vm]
       end.
  all: apply (bool_decide_pack _) in Hr; vm_compute in Hr; destruct Hr.
Qed.

End MniGraph.

(** ** Dependence of a construction on the module namespace *)

Lemma stable_ret {A} (N : list string) (a : A) : stable N (ret a).
Proof. by intros g g' s _. Qed.

Lemma stable_raise {A} (N : list string) (e : exn) : stable N (raise (A:=A) e).
Proof. by intros g g' s _. Qed.

Lemma stable_use (N : list string) (x : string) : x ∈ N -> stable N (use x).
Proof.
  intros Hx g g' s Hg. unfold use.
  by rewrite (bool_decide_ext _ _ (Hg x Hx)).
Qed.

Lemma stable_bind {A B} (N : list string) (m : build A) (k : A -> build B) :
  stable N m -> (forall a, stable N (k a)) -> stable N (bind m k).
Proof.
  intros Hm Hk g g' s Hg. unfold bind. rewrite (Hm g g' s Hg).
  destruct (m g' s) as [[a s']|e]; [by apply Hk | done].
Qed.

Lemma stable_Workflow_new (N : list string) (name : string) :
  "Workflow" ∈ N -> stable N (Workflow_new name).
Proof.
  intros H. apply stable_bind; [by apply stable_use | by intros _ g g' s _].
Qed.

Lemma stable_set_desc (N : list string) (d : string) : stable N (set_desc d).
Proof. by intros g g' s _. Qed.

Lemma stable_set_input (N : list string) (l : loc) (k : string) (v : pyval) :
  stable N (set_input l k v).
Proof. by intros g g' s _. Qed.

Lemma stable_set_file_input (N : list string) (isfile : string -> bool) (l : loc)
    (k path : string) :
  stable N (set_file_input isfile l k path).
Proof. by intros g g' s _. Qed.

Lemma stable_unset_desc (N : list string) (l : loc) : stable N (unset_desc l).
Proof. by intros g g' s _. Qed.

Lemma stable_connect (N : list string) cs : stable N (connect cs).
Proof. by intros g g' s _. Qed.

Lemma stable_alloc (N : list string) (o : engine_obj) : stable N (alloc o).
Proof. by intros g g' s _. Qed.

Lemma stable_mem_default_min (N : list string) :
  "DEFAULT_MEMORY_MIN_GB" ∈ N -> stable N mem_default_min.
Proof. intros H. apply stable_bind; [by apply stable_use | intros; apply stable_ret]. Qed.

Lemma stable_pe_Node (N : list string) i kw name m procs rws :
  "pe" ∈ N -> iface_global i ∈ N -> stable N m ->
  stable N (pe_Node i kw name m procs rws).
Proof.
  intros Hpe Hi Hm. unfold pe_Node.
  apply stable_bind; [by apply stable_use | intros _].
  apply stable_bind; [by apply stable_use | intros _].
  apply stable_bind; [done | intros].
  destruct (valid_name name); [apply stable_alloc | apply stable_raise].
Qed.

Lemma stable_call_init_bold_reference_wf (N : list string) omp pm :
  "init_bold_reference_wf" ∈ N -> stable N (call_init_bold_reference_wf omp pm).
Proof.
  intros H. apply stable_bind; [by apply stable_use | intros; apply stable_alloc].
Qed.

Lemma run_stable (N : list string) (m : build unit) (g g' : env) :
  stable N m -> agree N g g' -> run g m = run g' m.
Proof. intros Hm Hg. unfold run. by rewrite (Hm g g' _ Hg). Qed.

Ltac in_names := apply (bool_decide_unpack _); vm_compute; exact I.

Ltac stable_step :=
  first
    [ apply stable_Workflow_new; in_names
    | apply stable_call_init_bold_reference_wf; in_names
    | apply stable_mem_default_min; in_names
    | apply stable_pe_Node; [in_names | in_names | ]
    | apply stable_use; in_names
    | apply stable_ret
    | apply stable_set_desc
    | apply stable_set_input
    | apply stable_set_file_input
    | apply stable_unset_desc
    | apply stable_connect
    | apply stable_alloc
    | match goal with |- stable _ (if ?b then _ else _) => destruct b end
    | apply stable_bind; [|intros ?] ].

(** ** [init_bold_mni_trans_wf] in an arbitrary namespace *)

Section MniNamespace.

Import MniTrans.

Variable TEMPLATE_MAP : gmap string string.
Variable get_dataset : string -> string.
Variable isfile : string -> bool.

Lemma stable_subscript (N : list string) (d : gmap string string) (k : string) :
  stable N (subscript d k).
Proof. by intros g g' s _. Qed.

Lemma mni_body_stable (a : args) :
  stable module_globals (body TEMPLATE_MAP get_dataset isfile a).
Proof.
  unfold body, no_mem, mem. cbv zeta.
  repeat first [apply stable_subscript | stable_step].
Qed.

(** X11: every module-level name that [init_bold_mni_trans_wf] looks up is
    bound by the module itself: run in any namespace that contains the
    module's names, the body behaves exactly as the function does. *)
Theorem mni_body_names_bound (g : env) (a : args) :
  (forall x, x ∈ module_globals -> x ∈ g) ->
  run g (body TEMPLATE_MAP get_dataset isfile a) =
  init_bold_mni_trans_wf TEMPLATE_MAP get_dataset isfile a.
Proof.
  intros Hsub. unfold init_bold_mni_trans_wf.
  apply (run_stable module_globals); [apply mni_body_stable|].
  intros x Hx. split; intros _; [done | by apply Hsub].
Qed.

End MniNamespace.

(** ** [init_dwi_preproc_trans_wf] in an arbitrary namespace *)

Section PreprocNamespace.

Import PreprocTrans.

(** The body looks up no name outside the module's own and the two it
    leaves unbound. *)
Lemma dwi_body_stable (a : args) : stable repaired_globals (body a).
Proof. unfold body, no_mem, mem. repeat stable_step. Qed.

Lemma agree_repaired (g : env) (ba bn : bool) :
  (forall x, x ∈ module_globals -> x ∈ g) ->
  bool_decide ("afni" ∈ g) = ba ->
  bool_decide ("NiftiInfo" ∈ g) = bn ->
  agree repaired_globals g
    ((if ba then ["afni"] else []) ++ (if bn then ["NiftiInfo"] else []) ++ module_globals).
Proof.
  intros Hsub Ha Hn x Hx.
  apply elem_of_cons in Hx as [->|Hx]; [|apply elem_of_cons in Hx as [->|Hx]].
  - destruct ba.
    + apply (bool_decide_eq_true_1 _) in Ha. split; intros _; [destruct bn; in_names | done].
    + apply (bool_decide_eq_false_1 _) in Ha. split; intros H; [done|]. exfalso.
      destruct bn; apply (bool_decide_pack _) in H; vm_compute in H; destruct H.
  - destruct bn.
    + apply (bool_decide_eq_true_1 _) in Hn. split; intros _; [destruct ba; in_names | done].
    + apply (bool_decide_eq_false_1 _) in Hn. split; intros H; [done|]. exfalso.
      destruct ba; apply (bool_decide_pack _) in H; vm_compute in H; destruct H.
  - split; intros _; [|by apply Hsub].
    apply elem_of_app; right. apply elem_of_app; right. done.
Qed.

(** A namespace that extends the module's with both names behaves like
    [repaired_globals]. *)
Lemma dwi_run_bound (g : env) (a : args) :
  (forall x, x ∈ module_globals -> x ∈ g) -> "afni" ∈ g -> "NiftiInfo" ∈ g ->
  run g (body a) = run repaired_globals (body a).
Proof.
  intros Hsub Ha Hn.
  apply (run_stable repaired_globals); [apply dwi_body_stable|].
  apply (agree_repaired g true true Hsub); by apply bool_decide_eq_true_2.
Qed.

Ltac dwi_eval a Hv :=
  destruct a as [mem omp nm uc ufw sf interp];
  cbn [name] in Hv;
  unfold body, Workflow_new;
  cbn [mem_gb omp_nthreads name use_compression use_fieldwarp split_file
       interpolation];
  rewrite Hv; vm_compute; reflexivity.

(** X12: which names the function needs beyond those the module binds.  In
    any namespace that contains the module's names, and with a name the
    engine accepts, the call raises
    [NameError] for [afni] when [afni] is unbound, raises [NameError] for
    [NiftiInfo] when only [afni] is bound, and returns a workflow when both
    are bound. *)
Theorem dwi_needs_afni_and_NiftiInfo (g : env) (a : args) :
  (forall x, x ∈ module_globals -> x ∈ g) ->
  valid_name (name a) = true ->
  ("afni" ∉ g -> run g (body a) = Raise (NameError "afni")) /\
  ("afni" ∈ g -> "NiftiInfo" ∉ g -> run g (body a) = Raise (NameError "NiftiInfo")) /\
  ("afni" ∈ g -> "NiftiInfo" ∈ g -> exists s, run g (body a) = Ok s).
Proof.
  intros Hsub Hv. split; [|split].
  - intros Ha. apply (bool_decide_eq_false_2 _) in Ha.
    destruct (bool_decide ("NiftiInfo" ∈ g)) eqn:Hn.
    + rewrite (run_stable _ _ _ _ (dwi_body_stable a) (agree_repaired g _ _ Hsub Ha Hn)).
      dwi_eval a Hv.
    + rewrite (run_stable _ _ _ _ (dwi_body_stable a) (agree_repaired g _ _ Hsub Ha Hn)).
      dwi_eval a Hv.
  - intros Ha Hn. apply (bool_decide_eq_true_2 _) in Ha. apply (bool_decide_eq_false_2 _) in Hn.
    rewrite (run_stable _ _ _ _ (dwi_body_stable a) (agree_repaired g _ _ Hsub Ha Hn)).
    dwi_eval a Hv.
  - intros Ha Hn. rewrite (dwi_run_bound g a Hsub Ha Hn). by apply dwi_body_returns.
Qed.

Ltac dwi_bound a Hv Hsub Ha Hn :=
  rewrite (dwi_run_bound _ a Hsub Ha Hn);
  destruct a as [mem omp nm uc ufw sf interp];
  cbn [mem_gb omp_nthreads name use_compression use_fieldwarp split_file
       interpolation] in *;
  unfold body, Workflow_new;
  cbn [mem_gb omp_nthreads name use_compression use_fieldwarp split_file
       interpolation];
  rewrite Hv;
  destruct ufw, sf.

(** X13: once both names are bound and the name is accepted, the graph the body builds has no cycle,
    for every combination of [use_fieldwarp] and [split_file]. *)
Theorem dwi_graph_acyclic (g : env) (a : args) :
  (forall x, x ∈ module_globals -> x ∈ g) -> "afni" ∈ g -> "NiftiInfo" ∈ g ->
  valid_name (name a) = true ->
  exists s, run g (body a) = Ok s /\ acyclic s.
Proof.
  intros Hsub Ha Hn Hv. dwi_bound a Hv Hsub Ha Hn; eexists.
  all: split; [vm_compute; reflexivity|].
  all: apply (ranked_acyclic _ dwi_rank); vm_compute; reflexivity.
Qed.

(** X14: the four nodes created for the output grid ([autobox_t1],
    [deoblique_autobox], [resample_to_dwi], [dwi_info]) are never connected:
    they are not part of the returned graph.  Of the declared inputs,
    [bold_mask] is never used, and [fieldwarp] only with [use_fieldwarp]. *)
Theorem dwi_unused_nodes_and_inputs (g : env) (a : args) :
  (forall x, x ∈ module_globals -> x ∈ g) -> "afni" ∈ g -> "NiftiInfo" ∈ g ->
  valid_name (name a) = true ->
  exists s,
    run g (body a) = Ok s /\
    filter (fun nm => nm ∉ node_name <$> graph_nodes s) (omap obj_name (heap s)) =
      ["autobox_t1"; "deoblique_autobox"; "resample_to_dwi"; "dwi_info"] /\
    filter (fun f => f ∉ from_field <$> leaving s "inputnode")
           (declared_fields s "inputnode") =
      ["bold_mask"] ++ (if use_fieldwarp a then [] else ["fieldwarp"]).
Proof.
  intros Hsub Ha Hn Hv. dwi_bound a Hv Hsub Ha Hn; eexists.
  all: split; [vm_compute; reflexivity|].
  all: split; vm_compute; reflexivity.
Qed.

(** X15: each declared output has exactly one source: [bold] comes from
    [merge], while [bold_mask], [bold_ref] and [bold_ref_brain] all come from
    the nested reference workflow (the [bold_mask] output is not the
    [bold_mask] input).  Nothing leaves [outputnode], nothing enters
    [inputnode]. *)
Theorem dwi_outputs_fed_once (g : env) (a : args) :
  (forall x, x ∈ module_globals -> x ∈ g) -> "afni" ∈ g -> "NiftiInfo" ∈ g ->
  valid_name (name a) = true ->
  exists s,
    run g (body a) = Ok s /\
    declared_fields s "outputnode" = ["bold"; "bold_mask"; "bold_ref"; "bold_ref_brain"] /\
    feeds s "outputnode" <$> declared_fields s "outputnode" =
      [[wire "merge" "out_file" None "outputnode" "bold"];
       [{| from_node := None; from_field := "outputnode.bold_mask"; via := None;
           to_node := Some "outputnode"; to_field := "bold_mask" |}];
       [{| from_node := None; from_field := "outputnode.ref_image"; via := None;
           to_node := Some "outputnode"; to_field := "bold_ref" |}];
       [{| from_node := None; from_field := "outputnode.ref_image_brain"; via := None;
           to_node := Some "outputnode"; to_field := "bold_ref_brain" |}]] /\
    length (entering s "outputnode") = 4 /\
    leaving s "outputnode" = [] /\
    entering s "inputnode" = [].
Proof.
  intros Hsub Ha Hn Hv. dwi_bound a Hv Hsub Ha Hn; eexists.
  all: split; [vm_compute; reflexivity|].
  all: repeat split; vm_compute; reflexivity.
Qed.

(** X16: in the graph of the body no input port is connected twice and no
    statically assigned port is also connected. *)
Theorem dwi_inputs_fed_once (g : env) (a : args) :
  (forall x, x ∈ module_globals -> x ∈ g) -> "afni" ∈ g -> "NiftiInfo" ∈ g ->
  valid_name (name a) = true ->
  exists s,
    run g (body a) = Ok s /\
    NoDup (input_ports s) /\
    (forall p, p ∈ static_ports s -> p ∉ input_ports s).
Proof.
  intros Hsub Ha Hn Hv. dwi_bound a Hv Hsub Ha Hn; eexists.
  all: split; [vm_compute; reflexivity|].
  all: split; [decide_vm | apply Forall_forall; decide_vm].
Qed.

(** X17: every node of the graph is reached from [inputnode] and reaches
    [outputnode]. *)
Theorem dwi_graph_connected (g : env) (a : args) :
  (forall x, x ∈ module_globals -> x ∈ g) -> "afni" ∈ g -> "NiftiInfo" ∈ g ->
  valid_name (name a) = true ->
  exists s li ni lo no,
    run g (body a) = Ok s /\
    find_node s "inputnode" = Some (li, ni) /\
    find_node s "outputnode" = Some (lo, no) /\
    (forall l, l ∈ wf_nodes (workflow s) -> rtc (edge s) li l) /\
    (forall l, l ∈ wf_nodes (workflow s) -> rtc (edge s) l lo).
Proof.
  intros Hsub Ha Hn Hv. dwi_bound a Hv Hsub Ha Hn; do 5 eexists.
  all: split; [vm_compute; reflexivity|].
  all: split; [vm_compute; reflexivity|].
  all: split; [vm_compute; reflexivity|].
  all: split; intros l Hl; apply (reach_sound _ 9); revert l Hl;
    apply Forall_forall; decide_vm.
Qed.

End PreprocNamespace.

(** ** The further properties at sample calls *)

(** The mask path on the 2 mm grid. *)
Lemma mask_transform_path_witness :
  valid_name (MniTrans.name sample_mni_args_2mm) = true /\
  sample_TEMPLATE_MAP !! MniTrans.template sample_mni_args_2mm = Some "mni_icbm152_nlin_asym_09c" /\
  MniTrans.files_present sample_get_dataset sample_isfile sample_mni_args_2mm "mni_icbm152_nlin_asym_09c" = true /\
  (exists s l n,
    MniTrans.init_bold_mni_trans_wf sample_TEMPLATE_MAP sample_get_dataset
      sample_isfile sample_mni_args_2mm = Ok s /\
    find_node s "mask_merge_tfms" = Some (l, n) /\
    interface n = NiuMerge 2 /\
    feeds s "mask_merge_tfms" <$> input_slots (interface n) =
      [[wire "inputnode" "t1_2_mni_forward_transform" None "mask_merge_tfms" "in1"];
       [wire "inputnode" "itk_bold_to_t1" (Some fn_aslist_mni) "mask_merge_tfms" "in2"]] /\
    entering s "mask_merge_tfms" =
      [wire "inputnode" "t1_2_mni_forward_transform" None "mask_merge_tfms" "in1";
       wire "inputnode" "itk_bold_to_t1" (Some fn_aslist_mni) "mask_merge_tfms" "in2"] /\
    leaving s "mask_merge_tfms" =
      [wire "mask_merge_tfms" "out" None "mask_mni_tfm" "transforms"] /\
    entering s "mask_mni_tfm" =
      [wire "inputnode" "bold_mask" None "mask_mni_tfm" "input_image";
       wire "mask_merge_tfms" "out" None "mask_mni_tfm" "transforms"] ++
      (if String.eqb (MniTrans.template_out_grid sample_mni_args_2mm) "native"
       then [wire "gen_ref" "out_file" None "mask_mni_tfm" "reference_image"]
       else []) /\
    static_input s "mask_mni_tfm" "interpolation" = Some (VStr "MultiLabel") /\
    leaving s "mask_mni_tfm" =
      [wire "mask_mni_tfm" "output_image" None "outputnode" "bold_mask_mni";
       {| from_node := Some "mask_mni_tfm"; from_field := "output_image"; via := None;
          to_node := None; to_field := "inputnode.bold_mask" |}]).
Proof.
  split; [vm_compute; reflexivity|].
  split; [vm_compute; reflexivity|].
  split; [vm_compute; reflexivity|].
  apply (mask_transform_path sample_TEMPLATE_MAP sample_get_dataset sample_isfile sample_mni_args_2mm
           "mni_icbm152_nlin_asym_09c");
    vm_compute; reflexivity.
Defined.

(** Input ports on a custom grid. *)
Lemma mni_inputs_fed_once_witness :
  valid_name (MniTrans.name sample_mni_args_custom) = true /\
  sample_TEMPLATE_MAP !! MniTrans.template sample_mni_args_custom = Some "mni_icbm152_nlin_asym_09c" /\
  MniTrans.files_present sample_get_dataset sample_isfile sample_mni_args_custom "mni_icbm152_nlin_asym_09c" = true /\
  (exists s,
    MniTrans.init_bold_mni_trans_wf sample_TEMPLATE_MAP sample_get_dataset
      sample_isfile sample_mni_args_custom = Ok s /\
    NoDup (input_ports s) /\
    (forall p, p ∈ static_ports s -> p ∉ input_ports s)).
Proof.
  split; [vm_compute; reflexivity|].
  split; [vm_compute; reflexivity|].
  split; [vm_compute; reflexivity|].
  apply (mni_inputs_fed_once sample_TEMPLATE_MAP sample_get_dataset sample_isfile sample_mni_args_custom
           "mni_icbm152_nlin_asym_09c");
    vm_compute; reflexivity.
Defined.

(** Outputs of the docstring call. *)
Lemma mni_outputs_fed_once_witness :
  valid_name (MniTrans.name sample_mni_args) = true /\
  sample_TEMPLATE_MAP !! MniTrans.template sample_mni_args = Some "mni_icbm152_nlin_asym_09c" /\
  MniTrans.files_present sample_get_dataset sample_isfile sample_mni_args "mni_icbm152_nlin_asym_09c" = true /\
  (exists s,
    MniTrans.init_bold_mni_trans_wf sample_TEMPLATE_MAP sample_get_dataset
      sample_isfile sample_mni_args = Ok s /\
    declared_fields s "outputnode" = ["bold_mni"; "bold_mni_ref"; "bold_mask_mni"] /\
    feeds s "outputnode" <$> declared_fields s "outputnode" =
      [[wire "merge" "out_file" None "outputnode" "bold_mni"];
       [{| from_node := None; from_field := "outputnode.ref_image"; via := None;
           to_node := Some "outputnode"; to_field := "bold_mni_ref" |}];
       [wire "mask_mni_tfm" "output_image" None "outputnode" "bold_mask_mni"]] /\
    length (entering s "outputnode") = 3 /\
    leaving s "outputnode" = [] /\
    entering s "inputnode" = []).
Proof.
  split; [vm_compute; reflexivity|].
  split; [vm_compute; reflexivity|].
  split; [vm_compute; reflexivity|].
  apply (mni_outputs_fed_once sample_TEMPLATE_MAP sample_get_dataset sample_isfile sample_mni_args
           "mni_icbm152_nlin_asym_09c");
    vm_compute; reflexivity.
Defined.

(** Declared fields on a call with the field warp. *)
Lemma mni_declared_fields_used_witness :
  valid_name (MniTrans.name sample_mni_args_warp) = true /\
  sample_TEMPLATE_MAP !! MniTrans.template sample_mni_args_warp = Some "mni_icbm152_nlin_asym_09c" /\
  MniTrans.files_present sample_get_dataset sample_isfile sample_mni_args_warp "mni_icbm152_nlin_asym_09c" = true /\
  (exists s,
    MniTrans.init_bold_mni_trans_wf sample_TEMPLATE_MAP sample_get_dataset
      sample_isfile sample_mni_args_warp = Ok s /\
    (forall w, w ∈ leaving s "inputnode" ->
               from_field w ∈ declared_fields s "inputnode") /\
    (forall w, w ∈ entering s "outputnode" ->
               to_field w ∈ declared_fields s "outputnode") /\
    filter (fun f => f ∈ from_field <$> leaving s "inputnode")
           (declared_fields s "inputnode") =
      ["itk_bold_to_t1"; "t1_2_mni_forward_transform"; "name_source"; "bold_split";
       "bold_mask"; "hmc_xforms"] ++
      (if MniTrans.use_fieldwarp sample_mni_args_warp then ["fieldwarp"] else [])).
Proof.
  split; [vm_compute; reflexivity|].
  split; [vm_compute; reflexivity|].
  split; [vm_compute; reflexivity|].
  apply (mni_declared_fields_used sample_TEMPLATE_MAP sample_get_dataset sample_isfile sample_mni_args_warp
           "mni_icbm152_nlin_asym_09c");
    vm_compute; reflexivity.
Defined.

(** [gen_ref] on the 2 mm grid. *)
Lemma gen_ref_usage_witness :
  valid_name (MniTrans.name sample_mni_args_2mm) = true /\
  sample_TEMPLATE_MAP !! MniTrans.template sample_mni_args_2mm = Some "mni_icbm152_nlin_asym_09c" /\
  MniTrans.files_present sample_get_dataset sample_isfile sample_mni_args_2mm "mni_icbm152_nlin_asym_09c" = true /\
  (exists s,
    MniTrans.init_bold_mni_trans_wf sample_TEMPLATE_MAP sample_get_dataset
      sample_isfile sample_mni_args_2mm = Ok s /\
    static_input s "gen_ref" "fixed_image" =
      Some (VStr (op_join (sample_get_dataset "mni_icbm152_nlin_asym_09c") "1mm_T1.nii.gz")) /\
    entering s "gen_ref" =
      [wire "inputnode" "bold_split" (Some fn_first) "gen_ref" "moving_image"] /\
    leaving s "gen_ref" =
      (if String.eqb (MniTrans.template_out_grid sample_mni_args_2mm) "native"
       then [wire "gen_ref" "out_file" None "mask_mni_tfm" "reference_image";
             wire "gen_ref" "out_file" None "bold_to_mni_transform" "reference_image"]
       else [])).
Proof.
  split; [vm_compute; reflexivity|].
  split; [vm_compute; reflexivity|].
  split; [vm_compute; reflexivity|].
  apply (gen_ref_usage sample_TEMPLATE_MAP sample_get_dataset sample_isfile sample_mni_args_2mm
           "mni_icbm152_nlin_asym_09c");
    vm_compute; reflexivity.
Defined.

(** Connectedness of the graph of the docstring call. *)
Lemma mni_graph_connected_witness :
  valid_name (MniTrans.name sample_mni_args) = true /\
  sample_TEMPLATE_MAP !! MniTrans.template sample_mni_args = Some "mni_icbm152_nlin_asym_09c" /\
  MniTrans.files_present sample_get_dataset sample_isfile sample_mni_args "mni_icbm152_nlin_asym_09c" = true /\
  (exists s li ni lo no,
    MniTrans.init_bold_mni_trans_wf sample_TEMPLATE_MAP sample_get_dataset
      sample_isfile sample_mni_args = Ok s /\
    find_node s "inputnode" = Some (li, ni) /\
    find_node s "outputnode" = Some (lo, no) /\
    (forall l, l ∈ wf_nodes (workflow s) -> rtc (edge s) li l) /\
    (forall l, l ∈ wf_nodes (workflow s) ->
       name_at s l = Some "gen_ref" \/ rtc (edge s) l lo) /\
    (forall l, MniTrans.template_out_grid sample_mni_args = "native" ->
       l ∈ wf_nodes (workflow s) -> rtc (edge s) l lo)).
Proof.
  split; [vm_compute; reflexivity|].
  split; [vm_compute; reflexivity|].
  split; [vm_compute; reflexivity|].
  apply (mni_graph_connected sample_TEMPLATE_MAP sample_get_dataset sample_isfile sample_mni_args
           "mni_icbm152_nlin_asym_09c");
    vm_compute; reflexivity.
Defined.

(** The mask path on a call with the field warp. *)
Lemma mni_mask_not_downstream_of_xforms_witness :
  valid_name (MniTrans.name sample_mni_args_warp) = true /\
  sample_TEMPLATE_MAP !! MniTrans.template sample_mni_args_warp = Some "mni_icbm152_nlin_asym_09c" /\
  MniTrans.files_present sample_get_dataset sample_isfile sample_mni_args_warp "mni_icbm152_nlin_asym_09c" = true /\
  (exists s lx nx lm nm lk nk,
    MniTrans.init_bold_mni_trans_wf sample_TEMPLATE_MAP sample_get_dataset
      sample_isfile sample_mni_args_warp = Ok s /\
    find_node s "merge_xforms" = Some (lx, nx) /\
    find_node s "mask_mni_tfm" = Some (lm, nm) /\
    find_node s "mask_merge_tfms" = Some (lk, nk) /\
    ~ rtc (edge s) lx lm /\
    ~ rtc (edge s) lx lk).
Proof.
  split; [vm_compute; reflexivity|].
  split; [vm_compute; reflexivity|].
  split; [vm_compute; reflexivity|].
  apply (mni_mask_not_downstream_of_xforms sample_TEMPLATE_MAP sample_get_dataset sample_isfile sample_mni_args_warp
           "mni_icbm152_nlin_asym_09c");
    vm_compute; reflexivity.
Defined.

(** Two native-grid calls that differ in every other keyword. *)
Lemma mni_wiring_depends_on_two_switches_witness :
  MniTrans.name sample_mni_args <> MniTrans.name sample_mni_args_2 /\
  MniTrans.use_fieldwarp sample_mni_args = MniTrans.use_fieldwarp sample_mni_args_2 /\
  (MniTrans.template_out_grid sample_mni_args = "native" <->
   MniTrans.template_out_grid sample_mni_args_2 = "native") /\
  exists s1 s2,
    MniTrans.init_bold_mni_trans_wf sample_TEMPLATE_MAP sample_get_dataset sample_isfile
      sample_mni_args = Ok s1 /\
    MniTrans.init_bold_mni_trans_wf sample_TEMPLATE_MAP sample_get_dataset sample_isfile
      sample_mni_args_2 = Ok s2 /\
    wf_nodes (workflow s1) = wf_nodes (workflow s2) /\
    wf_conns (workflow s1) = wf_conns (workflow s2) /\
    wires s1 = wires s2.
Proof.
  assert (H3 : MniTrans.use_fieldwarp sample_mni_args =
               MniTrans.use_fieldwarp sample_mni_args_2) by reflexivity.
  assert (H4 : MniTrans.template_out_grid sample_mni_args = "native" <->
               MniTrans.template_out_grid sample_mni_args_2 = "native")
    by (split; reflexivity).
  split; [vm_compute; discriminate|]. split; [exact H3|]. split; [exact H4|].
  apply (mni_wiring_depends_on_two_switches sample_TEMPLATE_MAP sample_get_dataset
           sample_isfile sample_mni_args sample_mni_args_2 "mni_icbm152_nlin_asym_09c" "mni_icbm152_nlin_asym_09c");
    first [exact H3 | exact H4 | vm_compute; reflexivity].
Defined.

(** The docstring call in a namespace with one more name. *)
Lemma mni_body_names_bound_witness :
  (forall x, x ∈ module_globals -> x ∈ "extra" :: module_globals) /\
  run ("extra" :: module_globals)
    (MniTrans.body sample_TEMPLATE_MAP sample_get_dataset sample_isfile sample_mni_args) =
  MniTrans.init_bold_mni_trans_wf sample_TEMPLATE_MAP sample_get_dataset sample_isfile
    sample_mni_args.
Proof.
  assert (H : forall x, x ∈ module_globals -> x ∈ "extra" :: module_globals)
    by (intros x Hx; apply list_elem_of_further; exact Hx).
  split; [exact H|].
  exact (mni_body_names_bound sample_TEMPLATE_MAP sample_get_dataset sample_isfile
           ("extra" :: module_globals) sample_mni_args H).
Defined.

(** The docstring call in the module's own namespace. *)
Lemma dwi_needs_afni_and_NiftiInfo_witness :
  (forall x, x ∈ module_globals -> x ∈ module_globals) /\
  valid_name (PreprocTrans.name sample_dwi_args) = true /\
  (("afni" ∉ module_globals ->
    run module_globals (PreprocTrans.body sample_dwi_args) = Raise (NameError "afni")) /\
   ("afni" ∈ module_globals -> "NiftiInfo" ∉ module_globals ->
    run module_globals (PreprocTrans.body sample_dwi_args) =
      Raise (NameError "NiftiInfo")) /\
   ("afni" ∈ module_globals -> "NiftiInfo" ∈ module_globals ->
    exists s, run module_globals (PreprocTrans.body sample_dwi_args) = Ok s)).
Proof.
  assert (Hv : valid_name (PreprocTrans.name sample_dwi_args) = true)
    by (vm_compute; reflexivity).
  split; [exact (fun x H => H)|]. split; [exact Hv|].
  exact (dwi_needs_afni_and_NiftiInfo module_globals sample_dwi_args (fun x H => H) Hv).
Defined.

(** Acyclicity on the docstring call, both names bound. *)
Lemma dwi_graph_acyclic_witness :
  (forall x, x ∈ module_globals -> x ∈ repaired_globals) /\
  "afni" ∈ repaired_globals /\ "NiftiInfo" ∈ repaired_globals /\
  valid_name (PreprocTrans.name sample_dwi_args) = true /\
  (exists s, run repaired_globals (PreprocTrans.body sample_dwi_args) = Ok s /\ acyclic s).
Proof.
  assert (H : forall x, x ∈ module_globals -> x ∈ repaired_globals)
    by (intros x Hx; do 2 apply list_elem_of_further; exact Hx).
  assert (Ha : "afni" ∈ repaired_globals)
    by (apply (bool_decide_unpack _); vm_compute; exact I).
  assert (Hn : "NiftiInfo" ∈ repaired_globals)
    by (apply (bool_decide_unpack _); vm_compute; exact I).
  assert (Hv : valid_name (PreprocTrans.name sample_dwi_args) = true)
    by (vm_compute; reflexivity).
  split; [exact H|]. split; [exact Ha|]. split; [exact Hn|]. split; [exact Hv|].
  exact (dwi_graph_acyclic repaired_globals sample_dwi_args H Ha Hn Hv).
Defined.

(** Unused nodes and inputs on a call with [split_file], both names bound. *)
Lemma dwi_unused_nodes_and_inputs_witness :
  (forall x, x ∈ module_globals -> x ∈ repaired_globals) /\
  "afni" ∈ repaired_globals /\ "NiftiInfo" ∈ repaired_globals /\
  valid_name (PreprocTrans.name (PreprocTrans.with_split_file true sample_dwi_args)) = true /\
  (exists s,
    run repaired_globals (PreprocTrans.body (PreprocTrans.with_split_file true sample_dwi_args)) = Ok s /\
    filter (fun nm => nm ∉ node_name <$> graph_nodes s) (omap obj_name (heap s)) =
      ["autobox_t1"; "deoblique_autobox"; "resample_to_dwi"; "dwi_info"] /\
    filter (fun f => f ∉ from_field <$> leaving s "inputnode")
           (declared_fields s "inputnode") =
      ["bold_mask"] ++ (if PreprocTrans.use_fieldwarp (PreprocTrans.with_split_file true sample_dwi_args) then [] else ["fieldwarp"])).
Proof.
  assert (H : forall x, x ∈ module_globals -> x ∈ repaired_globals)
    by (intros x Hx; do 2 apply list_elem_of_further; exact Hx).
  assert (Ha : "afni" ∈ repaired_globals)
    by (apply (bool_decide_unpack _); vm_compute; exact I).
  assert (Hn : "NiftiInfo" ∈ repaired_globals)
    by (apply (bool_decide_unpack _); vm_compute; exact I).
  assert (Hv : valid_name (PreprocTrans.name (PreprocTrans.with_split_file true sample_dwi_args)) = true)
    by (vm_compute; reflexivity).
  split; [exact H|]. split; [exact Ha|]. split; [exact Hn|]. split; [exact Hv|].
  exact (dwi_unused_nodes_and_inputs repaired_globals (PreprocTrans.with_split_file true sample_dwi_args) H Ha Hn Hv).
Defined.

(** Outputs of the docstring call, both names bound. *)
Lemma dwi_outputs_fed_once_witness :
  (forall x, x ∈ module_globals -> x ∈ repaired_globals) /\
  "afni" ∈ repaired_globals /\ "NiftiInfo" ∈ repaired_globals /\
  valid_name (PreprocTrans.name sample_dwi_args) = true /\
  (exists s,
    run repaired_globals (PreprocTrans.body sample_dwi_args) = Ok s /\
    declared_fields s "outputnode" = ["bold"; "bold_mask"; "bold_ref"; "bold_ref_brain"] /\
    feeds s "outputnode" <$> declared_fields s "outputnode" =
      [[wire "merge" "out_file" None "outputnode" "bold"];
       [{| from_node := None; from_field := "outputnode.bold_mask"; via := None;
           to_node := Some "outputnode"; to_field := "bold_mask" |}];
       [{| from_node := None; from_field := "outputnode.ref_image"; via := None;
           to_node := Some "outputnode"; to_field := "bold_ref" |}];
       [{| from_node := None; from_field := "outputnode.ref_image_brain"; via := None;
           to_node := Some "outputnode"; to_field := "bold_ref_brain" |}]] /\
    length (entering s "outputnode") = 4 /\
    leaving s "outputnode" = [] /\
    entering s "inputnode" = []).
Proof.
  assert (H : forall x, x ∈ module_globals -> x ∈ repaired_globals)
    by (intros x Hx; do 2 apply list_elem_of_further; exact Hx).
  assert (Ha : "afni" ∈ repaired_globals)
    by (apply (bool_decide_unpack _); vm_compute; exact I).
  assert (Hn : "NiftiInfo" ∈ repaired_globals)
    by (apply (bool_decide_unpack _); vm_compute; exact I).
  assert (Hv : valid_name (PreprocTrans.name sample_dwi_args) = true)
    by (vm_compute; reflexivity).
  split; [exact H|]. split; [exact Ha|]. split; [exact Hn|]. split; [exact Hv|].
  exact (dwi_outputs_fed_once repaired_globals sample_dwi_args H Ha Hn Hv).
Defined.

(** Input ports on a call with [split_file], both names bound. *)
Lemma dwi_inputs_fed_once_witness :
  (forall x, x ∈ module_globals -> x ∈ repaired_globals) /\
  "afni" ∈ repaired_globals /\ "NiftiInfo" ∈ repaired_globals /\
  valid_name (PreprocTrans.name (PreprocTrans.with_split_file true sample_dwi_args)) = true /\
  (exists s,
    run repaired_globals (PreprocTrans.body (PreprocTrans.with_split_file true sample_dwi_args)) = Ok s /\
    NoDup (input_ports s) /\
    (forall p, p ∈ static_ports s -> p ∉ input_ports s)).
Proof.
  assert (H : forall x, x ∈ module_globals -> x ∈ repaired_globals)
    by (intros x Hx; do 2 apply list_elem_of_further; exact Hx).
  assert (Ha : "afni" ∈ repaired_globals)
    by (apply (bool_decide_unpack _); vm_compute; exact I).
  assert (Hn : "NiftiInfo" ∈ repaired_globals)
    by (apply (bool_decide_unpack _); vm_compute; exact I).
  assert (Hv : valid_name (PreprocTrans.name (PreprocTrans.with_split_file true sample_dwi_args)) = true)
    by (vm_compute; reflexivity).
  split; [exact H|]. split; [exact Ha|]. split; [exact Hn|]. split; [exact Hv|].
  exact (dwi_inputs_fed_once repaired_globals (PreprocTrans.with_split_file true sample_dwi_args) H Ha Hn Hv).
Defined.

(** Connectedness on a call with [split_file], both names bound. *)
Lemma dwi_graph_connected_witness :
  (forall x, x ∈ module_globals -> x ∈ repaired_globals) /\
  "afni" ∈ repaired_globals /\ "NiftiInfo" ∈ repaired_globals /\
  valid_name (PreprocTrans.name (PreprocTrans.with_split_file true sample_dwi_args)) = true /\
  (exists s li ni lo no,
    run repaired_globals (PreprocTrans.body (PreprocTrans.with_split_file true sample_dwi_args)) = Ok s /\
    find_node s "inputnode" = Some (li, ni) /\
    find_node s "outputnode" = Some (lo, no) /\
    (forall l, l ∈ wf_nodes (workflow s) -> rtc (edge s) li l) /\
    (forall l, l ∈ wf_nodes (workflow s) -> rtc (edge s) l lo)).
Proof.
  assert (H : forall x, x ∈ module_globals -> x ∈ repaired_globals)
    by (intros x Hx; do 2 apply list_elem_of_further; exact Hx).
  assert (Ha : "afni" ∈ repaired_globals)
    by (apply (bool_decide_unpack _); vm_compute; exact I).
  assert (Hn : "NiftiInfo" ∈ repaired_globals)
    by (apply (bool_decide_unpack _); vm_compute; exact I).
  assert (Hv : valid_name (PreprocTrans.name (PreprocTrans.with_split_file true sample_dwi_args)) = true)
    by (vm_compute; reflexivity).
  split; [exact H|]. split; [exact Ha|]. split; [exact Hn|]. split; [exact Hv|].
  exact (dwi_graph_connected repaired_globals (PreprocTrans.with_split_file true sample_dwi_args) H Ha Hn Hv).
Defined.
